(** * modelicares._io.dymola: reading Dymola-formatted results

    A shallow embedding of [src/modelicares/_io/dymola.py]: the [Samples]
    value model, the text scanner [loadtxt], the format detector [read], the
    trajectory assembler [readsim] with its description parser, and the
    linearization assembler [readlin].

    Conventions of the embedding.
    - A Python dictionary is a [gmap string _]; a Python list is a [list].
    - A 2-D numpy array is an [ndarray]: its rows and, separately, the length
      of axis 1 (a numpy array of shape (0, c) still has c columns).
    - Python and numpy integers are [Z]; the width of a numpy integer comes
      from the file that was loaded, not from this module, and the index
      arithmetic of the module is modelled on the mathematical integers.
    - The element type of the numeric arrays also comes from the file
      (float64, float32, ...): it is a type [F] with the three operations the
      module applies to elements, see [Numeric].
    - An exception is a value of [exn]; code that may raise returns a
      [result].  [assert] is modelled as executed (Python without -O).
    - The trajectory matrices are mutated in place and shared by the
      variables read from them: they live in a store (a list of matrices) and
      a 1-D array is either a view of a column of the store or an array of
      its own, see [arr]. *)

From Stdlib Require Import ZArith Ascii String DecimalString DecimalNat Lia.
From stdpp Require Import gmap strings list fin_maps.

Open Scope Z_scope.

(** ** Python values and exceptions *)

Module Py.

(** The exception classes the module can raise, or let through.
    [Unsupported] stands for what Python raises when a matrix of the file
    does not have the kind or shape its name has in a Dymola file (the
    list of names is a numeric array, the state count is not a single
    integer, ...): the first operation that the value does not support
    raises, with an exception that is numpy's to choose. *)
Inductive exn : Type :=
| IOError (msg : string)
| TypeError (msg : string)
| AssertionError (msg : string)
| KeyError (key : string)
| NameError (name : string)
| IndexError
| ValueError
| AttributeError
| StopIteration
| UnicodeDecodeError
| Unsupported.

Inductive result (A : Type) : Type :=
| Ok (a : A)
| Raise (e : exn).
Arguments Ok {A} a.
Arguments Raise {A} e.

Definition bind {A B} (r : result A) (k : A → result B) : result B :=
  match r with
  | Ok a => k a
  | Raise e => Raise e
  end.

Definition is_ok {A} (r : result A) : bool :=
  match r with Ok _ => true | Raise _ => false end.

(** [seq[i]] for an integer [i]: a negative index counts from the end. *)
Definition index (len : nat) (i : Z) : result nat :=
  if (0 <=? i) && (i <? Z.of_nat len) then Ok (Z.to_nat i)
  else if (- Z.of_nat len <=? i) && (i <? 0) then Ok (Z.to_nat (Z.of_nat len + i))
  else Raise IndexError.

(** A slice bound [b] of a sequence of length [len], as Python clamps it. *)
Definition bound (len : nat) (b : Z) : nat :=
  if b <? 0 then Z.to_nat (Z.max 0 (Z.of_nat len + b))
  else Z.to_nat (Z.min b (Z.of_nat len)).

(** [l[:b]], [l[a:]] and [l[a:b]]. *)
Definition slice_to {A} (b : Z) (l : list A) : list A :=
  take (bound (length l) b) l.
Definition slice_from {A} (a : Z) (l : list A) : list A :=
  drop (bound (length l) a) l.
Definition slice {A} (a b : Z) (l : list A) : list A :=
  let lo := bound (length l) a in
  let hi := bound (length l) b in
  take (hi - lo)%nat (drop lo l).

(** [d[key]] on a dictionary. *)
Definition getitem {V} (d : gmap string V) (key : string) : result V :=
  match d !! key with
  | Some v => Ok v
  | None => Raise (KeyError key)
  end.

End Py.
Import Py.

(** Sequencing uses stdpp's monad notation [x ← r; k]. *)
#[global] Instance result_bind : MBind Py.result :=
  λ A B k r, Py.bind r k.

(** ** numpy arrays *)

(** The three element operations of the module: unary minus, [*=] by a
    unit's value, and the test [unit._value <> 1.0]. *)
Class Numeric (F : Type) : Type := {
  fneg : F → F;
  fmul : F → F → F;
  fne_one : F → bool;
}.

Record ndarray (A : Type) : Type := Ndarray {
  ncols : nat;
  rows : list (list A);
}.
Arguments Ndarray {A} ncols rows.
Arguments ncols {A} _.
Arguments rows {A} _.

Definition nrows {A} (m : ndarray A) : nat := length (rows m).

(** Every row has the length of axis 1. *)
Definition wf {A} (m : ndarray A) : Prop :=
  Forall (λ r, length r = ncols m) (rows m).

(** The entries of column [j], top to bottom. *)
Definition column {A} (j : nat) (m : ndarray A) : list A :=
  omap (λ r : list A, r !! j) (rows m).

(** [m.T] *)
Definition transpose {A} (m : ndarray A) : ndarray A :=
  {| ncols := nrows m;
     rows := (λ j, column j m) <$> seq 0 (ncols m) |}.

(** [m[:, j]] for an integer [j]: the resolved column, or IndexError. *)
Definition col_index {A} (m : ndarray A) (j : Z) : result nat :=
  Py.index (ncols m) j.

(** ** The store of trajectory matrices, and 1-D arrays *)

(** The list [trajectories] of [readsim]; entry k is [data_(k+1)]. *)
Abbreviation store F := (list (ndarray F)).

Section Arrays.
Context {F : Type} `{!Numeric F}.

(** A 1-D array: a view [trajectories[k][:, j]] that shares the matrix's
    memory, or an array with memory of its own. *)
Inductive arr : Type :=
| View (k j : nat)
| Fresh (elems : list F).

(** The elements an array holds in a given store. *)
Definition deref (st : store F) (a : arr) : list F :=
  match a with
  | View k j => match st !! k with Some m => column j m | None => [] end
  | Fresh l => l
  end.

(** [-a]: a new array. *)
Definition neg (st : store F) (a : arr) : arr := Fresh (fneg <$> deref st a).

(** ** Samples *)

Record Samples : Type := mkSamples {
  times : arr;
  signed_values : arr;
  negated : bool;
}.

(** The property [Samples.values]:
    [-self.signed_values if self.negated else self.signed_values]. *)
Definition values (st : store F) (S : Samples) : arr :=
  if negated S then neg st (signed_values S) else signed_values S.

End Arrays.
Arguments arr F : clear implicits.
Arguments Samples F : clear implicits.

(** ** Python strings *)

Module Str.

Definition mem (c : ascii) (cs : string) : bool :=
  existsb (Ascii.eqb c) (list_ascii_of_string cs).

(** The characters [str.rstrip()] and [str.strip()] remove when called
    without argument: space, tab, newline, vertical tab, form feed and
    carriage return. *)
Definition whitespace : string :=
  String " " (String "009" (String "010" (String "011"
    (String "012" (String "013" EmptyString))))).

(** [s.rstrip(cs)] *)
Fixpoint rstrip (cs : string) (s : string) : string :=
  match s with
  | EmptyString => EmptyString
  | String c s' =>
      match rstrip cs s' with
      | EmptyString => if mem c cs then EmptyString else String c EmptyString
      | r => String c r
      end
  end.

(** [s.rsplit(sep, 1)] for a one-character [sep], when [sep] occurs in
    [s]: the text before its last occurrence and the text after it.  When
    it does not occur Python returns the one-element list [[s]]: [None]. *)
Fixpoint rsplit1 (sep : ascii) (s : string) : option (string * string) :=
  match s with
  | EmptyString => None
  | String c s' =>
      match rsplit1 sep s' with
      | Some (a, b) => Some (String c a, b)
      | None => if Ascii.eqb c sep then Some (EmptyString, s') else None
      end
  end.

(** [s.split(sep)[0]] for a one-character [sep]. *)
Fixpoint before (sep : ascii) (s : string) : string :=
  match s with
  | EmptyString => EmptyString
  | String c s' => if Ascii.eqb c sep then EmptyString else String c (before sep s')
  end.

(** [s.replace(old, new)] for a non-empty [old]: the occurrences of [old]
    are replaced from left to right and do not overlap; [skip] counts the
    characters of an occurrence still to be passed over. *)
Fixpoint replace_from (skip : nat) (old new s : string) : string :=
  match s with
  | EmptyString => EmptyString
  | String c s' =>
      match skip with
      | S k => replace_from k old new s'
      | O =>
          if String.prefix old s
          then new +:+ replace_from (String.length old - 1) old new s'
          else String c (replace_from O old new s')
      end
  end.
Definition replace (old new s : string) : string := replace_from O old new s.

(** [s.startswith(p)] *)
Definition startswith (p s : string) : bool := String.prefix p s.

(** The longest prefix of [s] made of characters that satisfy [p], and
    what follows it. *)
Fixpoint span (p : ascii → bool) (s : string) : string * string :=
  match s with
  | EmptyString => (EmptyString, EmptyString)
  | String c s' =>
      if p c then let '(a, b) := span p s' in (String c a, b)
      else (EmptyString, s)
  end.

(** The maximal runs of non-whitespace characters of [s], in order; [cur]
    is the run being read, reversed. *)
Fixpoint fields_from (cur : list ascii) (s : string) : list string :=
  let flush := match cur with
               | [] => []
               | _ => [string_of_list_ascii (reverse cur)]
               end in
  match s with
  | EmptyString => flush
  | String c s' =>
      if mem c whitespace then flush ++ fields_from [] s'
      else fields_from (c :: cur) s'
  end.
Definition fields (s : string) : list string := fields_from [] s.

Definition is_digit (c : ascii) : bool :=
  let n := nat_of_ascii c in (48 <=? n)%nat && (n <=? 57)%nat.

(** The class \w of a byte-string pattern: letters, digits and the
    underscore. *)
Definition is_word (c : ascii) : bool :=
  let n := nat_of_ascii c in
  is_digit c || ((65 <=? n)%nat && (n <=? 90)%nat)
  || ((97 <=? n)%nat && (n <=? 122)%nat) || (n =? 95)%nat.

(** [int(s)] for a string of decimal digits; [int('')] raises. *)
Fixpoint digits_value (acc : nat) (s : string) : nat :=
  match s with
  | EmptyString => acc
  | String c s' => digits_value (10 * acc + (nat_of_ascii c - 48))%nat s'
  end.
Definition int_of_digits (s : string) : result nat :=
  match s with
  | EmptyString => Raise ValueError
  | _ => Ok (digits_value O s)
  end.

(** ['%i' % n] for a natural number. *)
Definition of_nat (n : nat) : string := NilEmpty.string_of_uint (Nat.to_uint n).

End Str.

(** ** Values of the dictionary of loaded matrices *)

(** What [loadmat] and [loadtxt] put in the dictionary: a 2-D array of
    numbers, integers or characters (dtype '<U1'), a list of strings, or the
    1-D array that [np.array] makes of a list of rows that is empty or whose
    rows differ in length (in the second case an array of row objects). *)
Inductive value (F : Type) : Type :=
| Float2 (m : ndarray F)
| Int2 (m : ndarray Z)
| Char2 (m : ndarray ascii)
| StrList (l : list string)
| Float1 (items : list (list F))
| Int1 (items : list (list Z)).
Arguments Float2 {F} m.
Arguments Int2 {F} m.
Arguments Char2 {F} m.
Arguments StrList {F} l.
Arguments Float1 {F} items.
Arguments Int1 {F} items.

(** [np.array(rows)] for a list of 1-D arrays: 2-D when there is a first
    row and all rows have its length. *)
Definition np_array {A} (rs : list (list A)) : ndarray A + list (list A) :=
  match rs with
  | [] => inr []
  | r :: _ =>
      if forallb (λ r', (length r' =? length r)%nat) rs
      then inl {| ncols := length r; rows := rs |}
      else inr rs
  end.

(** ** The text scanner *)

Section Loadtxt.
Context {F : Type}.

(** The conversions of one number that [np.fromstring] applies; [None]
    when the text is not a number. *)
Variable atof : string → option F.
Variable atoi : string → option Z.

(** [np.fromstring(text, dtype, sep=' ')] on a line of numbers that
    whitespace separates: the numbers, in order.  This is the case the
    parsers of a block are written for.  On other lines the model stops at
    the first field that [conv] refuses; numpy itself converts the leading
    number of such a field before it stops, and makes one element of a
    line without any field.  Nothing below is stated about those lines. *)
Fixpoint fromstring_fields {A} (conv : string → option A) (fs : list string)
  : list A :=
  match fs with
  | [] => []
  | f :: fs' =>
      match conv f with
      | Some x => x :: fromstring_fields conv fs'
      | None => []
      end
  end.
Definition fromstring {A} (conv : string → option A) (text : string) : list A :=
  fromstring_fields conv (Str.fields text).

(** [f.next()] on the lines still to be read. *)
Definition next (lines : list string) : result (string * list string) :=
  match lines with
  | [] => Raise StopIteration
  | l :: rest => Ok (l, rest)
  end.

(** Modelled from the spec: [next_nonblank] of [modelicares.util], which
    is not part of the sources at hand.  The scanner is line-oriented and a
    block starts at the next line that is not blank: lines made of
    whitespace only are passed over, and the end of the file raises
    StopIteration as [f.next()] does. *)
Fixpoint next_nonblank (lines : list string) : result (string * list string) :=
  match lines with
  | [] => Raise StopIteration
  | l :: rest =>
      match Str.rstrip Str.whitespace l with
      | EmptyString => next_nonblank rest
      | _ => Ok (l, rest)
      end
  end.

(** [SPLIT_DEFINITION]: the pattern of a block's first line, matched at
    the start of the line: a run of word characters (the type word),
    spaces, a run of word characters (the name), spaces, an opening
    parenthesis, spaces, a run of digits (nrows), spaces, a comma, spaces,
    a run of digits (ncols), spaces, a closing parenthesis; every run may
    be empty.  Each run is followed by a character outside its class, so
    the leftmost-longest reading below is the match the pattern finds. *)
Definition spaces (s : string) : string := snd (Str.span (Ascii.eqb " ") s).
Definition expect (c : ascii) (s : string) : option string :=
  match s with
  | String c' s' => if Ascii.eqb c' c then Some s' else None
  | EmptyString => None
  end.
Definition SPLIT_DEFINITION (line : string)
  : option (string * string * string * string) :=
  let '(type_string, r) := Str.span Str.is_word line in
  let '(name, r) := Str.span Str.is_word (spaces r) in
  r ← expect "(" (spaces r);
  let '(nrows, r) := Str.span Str.is_digit (spaces r) in
  r ← expect "," (spaces r);
  let '(ncols, r) := Str.span Str.is_digit (spaces r) in
  _ ← expect ")" (spaces r);
  Some (type_string, name, nrows, ncols).

(** [[g(get()) for row in rows]]: one line per row; the end of the file
    raises StopIteration from [get]. *)
Fixpoint read_rows {A} (g : string → A) (n : nat) (lines : list string)
  : result (list A * list string) :=
  match n with
  | O => Ok ([], lines)
  | S n' =>
      '(l, rest) ← next lines;
      '(xs, rest') ← read_rows g n' rest;
      Ok (g l :: xs, rest')
  end.

(** [PARSERS]: the parser of a type word, applied to [f.next] and the
    rows; a type word without parser is a KeyError. *)
Definition PARSERS (type_string : string)
  : option (nat → list string → result (value F * list string)) :=
  if String.eqb type_string "char" then
    Some (λ n lines,
      '(ls, rest) ← read_rows (Str.rstrip Str.whitespace) n lines;
      Ok (StrList ls, rest))
  else if String.eqb type_string "float" then
    Some (λ n lines,
      '(rs, rest) ← read_rows (λ l, fromstring atof (Str.before "#" l)) n lines;
      Ok (match np_array rs with
          | inl m => Float2 (transpose m)
          | inr items => Float1 items
          end, rest))
  else if String.eqb type_string "int" then
    Some (λ n lines,
      '(rs, rest) ← read_rows (λ l, fromstring atoi (Str.before "#" l)) n lines;
      Ok (match np_array rs with
          | inl m => Int2 m
          | inr items => Int1 items
          end, rest))
  else None.

(** [name in variable_names], with [None] for "all variables". *)
Definition selected (variable_names : option (list string)) (name : string) : bool :=
  match variable_names with
  | None => true
  | Some ns => existsb (String.eqb name) ns
  end.

(** The [while True] loop of [loadtxt].  Every turn takes at least one
    line, so [fuel] above the number of lines is never used up
    ([scan_fuel]). *)
Fixpoint scan (fuel : nat) (variable_names : option (list string))
    (lines : list string) (data : gmap string (value F))
  : result (gmap string (value F)) :=
  match fuel with
  | O => Ok data
  | S fuel' =>
      match next_nonblank lines with
      | Raise StopIteration => Ok data
      | Raise e => Raise e
      | Ok (line, rest) =>
          match SPLIT_DEFINITION line with
          | None => Raise AttributeError
          | Some (type_string, name, nrows, ncols) =>
              n ← Str.int_of_digits nrows;
              if selected variable_names name then
                match PARSERS type_string with
                | None => Raise (KeyError ("Unknown variable type: " +:+ type_string))
                | Some parse =>
                    match parse n rest with
                    | Raise StopIteration => Raise ValueError
                    | Raise e => Raise e
                    | Ok (v, rest') =>
                        scan fuel' variable_names rest' (<[name := v]> data)
                    end
                end
              else
                '(_, rest') ← read_rows (λ _, tt) n rest;
                scan fuel' variable_names rest' data
          end
      end
  end.

(** [loadtxt(file_name, variable_names, skip_header)] on the lines of the
    file, each with its line end. *)
Definition loadtxt (lines : list string) (variable_names : option (list string))
    (skip_header : nat) : result (gmap string (value F)) :=
  '(_, rest) ← read_rows (λ _, tt) skip_header lines;
  scan (S (length rest)) variable_names rest ∅.

End Loadtxt.

(** ** The format detector *)

Definition dquote : string := String "034" EmptyString.

(** [get_strings] (the Python 2 definition; the module is Python 2 code):
    one string per row of the character array, without the blanks and NUL
    characters at its right end.  The characters are bytes, which
    [encode('latin-1')] gives back unchanged. *)
Definition get_strings (str_arr : ndarray ascii) : list string :=
  (λ line, Str.rstrip (String " " (String "000" EmptyString))
             (string_of_list_ascii line)) <$> rows str_arr.

Section Read.
Context {F : Type}.

(** What [scipy.io.loadmat] does with a file. *)
Inductive loadmat_outcome : Type :=
| MatLoaded (data : gmap string (value F))
| MatValueError
| MatIOError
| MatRaises (e : exn).

(** The services the module calls: [loadmat(fname, variable_names, ...)],
    [open(file_name)] as the lines of the file ([None] when it cannot be
    opened), and the number conversions of [np.fromstring]. *)
Variable loadmat : string → option (list string) → loadmat_outcome.
Variable open_lines : string → option (list string).
Variable atof : string → option F.
Variable atoi : string → option Z.

(** [value.T] *)
Definition value_T (v : value F) : result (value F) :=
  match v with
  | Float2 m => Ok (Float2 (transpose m))
  | Int2 m => Ok (Int2 (transpose m))
  | Char2 m => Ok (Char2 (transpose m))
  | Float1 items => Ok (Float1 items)
  | Int1 items => Ok (Int1 items)
  | StrList _ => Raise AttributeError
  end.

(** One turn of the loop of a binary file over [data.items()]. *)
Definition undo_binary (transposed : bool) (v : value F) : result (value F) :=
  match v with
  | Char2 m => Ok (StrList (get_strings (if transposed then transpose m else m)))
  | StrList _ => Raise AttributeError
  | _ => if transposed then value_T v else Ok v
  end.

(** One turn of the loop of a text file. *)
Definition undo_text (name : string) (v : value F) : result (value F) :=
  if Str.startswith "data_" name then value_T v else Ok v.

(** [for name, value in data.items(): data[name] = ...] *)
Definition update_items (f : string → value F → result (value F))
    (data : gmap string (value F)) : result (gmap string (value F)) :=
  map_fold (λ name v acc, d ← acc; v' ← f name v; Ok (<[name := v']> d))
           (Ok data) data.

Definition orientation_message (line : string) : string :=
  "The orientation of the Dymola-formatted results is not recognized.  The third line of the "
  +:+ dquote +:+ "Aclass" +:+ dquote +:+ " variable is " +:+ dquote +:+ line
  +:+ dquote +:+ ", but it should be " +:+ dquote +:+ "binNormal" +:+ dquote
  +:+ " or " +:+ dquote +:+ "binTrans" +:+ dquote +:+ ".".

(** [transposed], from [Aclass[3]]: false without assertion when the list
    has no index 3 (the IndexError handler). *)
Definition is_transposed (Aclass : list string) : result bool :=
  match Aclass !! 3%nat with
  | None => Ok false
  | Some line =>
      let transposed := String.eqb line "binTrans" in
      if transposed || String.eqb line "binNormal" then Ok transposed
      else Raise (AssertionError (orientation_message line))
  end.

(** [read], after the file has been loaded: [binary] says by which
    loader. *)
Definition read_loaded (fname : string) (binary : bool)
    (data : gmap string (value F))
  : result (gmap string (value F) * list string) :=
  match data !! "Aclass" with
  | None =>
      Raise (TypeError (dquote +:+ fname +:+ dquote
        +:+ " does not appear to use the Dymola format.  The "
        +:+ dquote +:+ "Aclass" +:+ dquote +:+ " variable is missing."))
  | Some Aclass =>
      let data := delete "Aclass" data in
      if binary then
        Aclass ← match Aclass with
                 | Char2 m => Ok (get_strings m)
                 | _ => Raise Unsupported
                 end;
        transposed ← is_transposed Aclass;
        data ← update_items (λ _, undo_binary transposed) data;
        Ok (data, Aclass)
      else
        data ← update_items undo_text data;
        Aclass ← match Aclass with
                 | StrList l => Ok l
                 | _ => Raise Unsupported
                 end;
        Ok (data, Aclass)
  end.

(** [read].  When [loadmat] raises ValueError the text scanner takes over;
    an [open] that fails there raises its own IOError from inside the
    handler, which the handler for IOError next to it does not catch. *)
Definition read (fname : string) (constants_only : bool)
  : result (gmap string (value F) * list string) :=
  let variable_names :=
    if constants_only
    then Some ["Aclass"; "name"; "names"; "description"; "dataInfo"; "data"; "data_1"]
    else None in
  match loadmat fname variable_names with
  | MatLoaded data => read_loaded fname true data
  | MatValueError =>
      match open_lines fname with
      | None => Raise (IOError fname)
      | Some lines =>
          data ← loadtxt atof atoi lines variable_names 1;
          read_loaded fname false data
      end
  | MatIOError =>
      Raise (IOError (dquote +:+ fname +:+ dquote
        +:+ " could not be opened.  Check that it exists."))
  | MatRaises e => Raise e
  end.

End Read.
Arguments loadmat_outcome F : clear implicits.

(** ** Units and variables *)

(** A unit of [natu], as the module uses it: both kinds have a dimension; a
    scalar unit has a [_value]; a LambdaUnit has none (reading it is the
    AttributeError of [readsim]) and converts a number with [_toquantity],
    of which the module takes the [_value]. *)
Inductive Unit (Dim F : Type) : Type :=
| ScalarUnit (dimension : Dim) (_value : F)
| LambdaUnit (dimension : Dim) (_toquantity_value : F → F).
Arguments ScalarUnit {Dim F} dimension _value.
Arguments LambdaUnit {Dim F} dimension _toquantity_value.

Definition unit_dimension {Dim F} (u : Unit Dim F) : Dim :=
  match u with
  | ScalarUnit d _ => d
  | LambdaUnit d _ => d
  end.

(** A description: a byte string, or the unicode string that
    [decode('utf-8')] makes of one. *)
Inductive text (ustring : Type) : Type :=
| Bytes (s : string)
| Unicode (u : ustring).
Arguments Bytes {ustring} s.
Arguments Unicode {ustring} u.

(** [modelicares.simres.Variable], a record of four fields; [None] is
    Python's None. *)
Record SimVariable (F Dim ustring : Type) : Type := mkVariable {
  samples : Samples F;
  var_dimension : option Dim;
  display_unit : option string;
  description : text ustring;
}.
Arguments mkVariable {F Dim ustring} samples var_dimension display_unit description.
Arguments samples {F Dim ustring} _.
Arguments var_dimension {F Dim ustring} _.
Arguments display_unit {F Dim ustring} _.
Arguments description {F Dim ustring} _.

(** ** The trajectory assembler *)

Section Readsim.
Context {F : Type} `{!Numeric F}.
Variables Dim ustring : Type.

(** The services of [natu] and of Python: [U._units( **Exponents(unit))]
    for a unit string, the unit [second] (natu's [s]), a scalar unit, by
    its value and dimension, and [str.decode('utf-8')]. *)
Variable natu_units : string → result (Unit Dim F).
Variable second_value : F.
Variable second_dimension : Dim.
Variable decode_utf8 : string → result ustring.

(** The text of a description string: the description, the unit and the
    display unit of [parse_description], before the unit string goes to
    [natu] and the description is decoded (lines 292 to 305, and 307). *)
Definition description_parts (description : string) : string * string * string :=
  let description := Str.rstrip "]" description in
  let displayUnit := EmptyString in
  let '(description, unit, displayUnit) :=
    match Str.rsplit1 "[" description with
    | None => (description, EmptyString, displayUnit)
    | Some (description, unit) =>
        let unit := Str.replace "Ohm" "ohm" (Str.replace "." "*" unit) in
        match Str.rsplit1 "|" unit with
        | Some (unit, displayUnit) => (description, unit, displayUnit)
        | None => (description, unit, displayUnit)
        end
    end in
  let display_unit :=
    match displayUnit with EmptyString => unit | _ => displayUnit end in
  (unit, display_unit, Str.rstrip Str.whitespace description).

Definition parse_description (description : string)
  : result (Unit Dim F * string * ustring) :=
  let '(unit, display_unit, description) := description_parts description in
  unit ← natu_units unit;
  description ← decode_utf8 description;
  Ok (unit, display_unit, description).

(** [m[:, j] *= v] on a matrix: column [j] is scaled where it is. *)
Definition scale_column (j : nat) (v : F) (m : ndarray F) : ndarray F :=
  {| ncols := ncols m;
     rows := (λ r, alter (λ x, fmul x v) j r) <$> rows m |}.

(** The same on matrix [k] of the store. *)
Definition scale_view (k j : nat) (v : F) (st : store F) : store F :=
  alter (scale_column j v) k st.

Definition as_float2 (v : value F) : result (ndarray F) :=
  match v with Float2 m => Ok m | _ => Raise Unsupported end.
Definition as_int2 (v : value F) : result (ndarray Z) :=
  match v with Int2 m => Ok m | _ => Raise Unsupported end.
Definition as_strings (v : value F) : result (list string) :=
  match v with StrList l => Ok l | _ => Raise Unsupported end.

(** The loop [for i in count(1)] that collects [data_1], [data_2], ...
    up to the first missing one, and applies the value of the unit second
    to the time column of each.  A dictionary of n entries holds at most
    n of these names: [fuel] above n is never used up
    ([extract_fuel]). *)
Fixpoint extract_trajectories (fuel i : nat) (data : gmap string (value F))
    (trajectories : store F) : result (store F) :=
  match fuel with
  | O => Ok trajectories
  | S fuel' =>
      match data !! ("data_" +:+ Str.of_nat i) with
      | None => Ok trajectories
      | Some v =>
          m ← as_float2 v;
          m ← (if fne_one second_value
               then (_ ← col_index m 0; Ok (scale_column 0 second_value m))
               else Ok m);
          extract_trajectories fuel' (S i) data (trajectories ++ [m])
      end
  end.

(** Lines 351 to 354: the flag, the matrix and the two columns that a
    row [data_set, sign_col] of [dataInfo] names. *)
Definition locate (trajectories : store F) (data_set sign_col : Z)
  : result (bool * nat * arr F * arr F) :=
  let negated := sign_col <? 0 in
  k ← Py.index (length trajectories) (data_set - 1);
  match trajectories !! k with
  | None => Raise IndexError
  | Some traj =>
      j ← col_index traj ((if negated then - sign_col else sign_col) - 1);
      let signed_values := View k j in
      t ← col_index traj 0;
      let times := View k t in
      Ok (negated, k, signed_values, times)
  end.

(** [np.vectorize(f)(a)]: a new array; numpy refuses an array without
    elements, because [vectorize] calls [f] on the first one to learn the
    type of the result. *)
Definition vectorize (f : F → F) (st : store F) (a : arr F) : result (arr F) :=
  match deref st a with
  | [] => Raise ValueError
  | l => Ok (Fresh (f <$> l))
  end.

(** Lines 355 to 364: the unit's value goes into the column the view
    shares with the matrix; a LambdaUnit gets arrays of its own. *)
Definition apply_unit (st : store F) (unit : Unit Dim F)
    (signed_values : arr F) (negated : bool)
  : result (store F * arr F * bool) :=
  match unit with
  | ScalarUnit _ v =>
      if fne_one v then
        match signed_values with
        | View k j => Ok (scale_view k j v st, signed_values, negated)
        | Fresh l => Ok (st, Fresh ((λ x, fmul x v) <$> l), negated)
        end
      else Ok (st, signed_values, negated)
  | LambdaUnit _ f =>
      let signed_values := if negated then neg st signed_values else signed_values in
      let negated := false in
      signed_values ← vectorize f st signed_values;
      Ok (st, signed_values, negated)
  end.

Abbreviation SimVar := (SimVariable F Dim ustring).

(** One turn of the loop that creates the variables. *)
Definition make_variable (st : store F) (description : string) (row : list Z)
  : result (store F * SimVar * arr F) :=
  match row with
  | [data_set; sign_col] =>
      '(unit, display_unit, description) ← parse_description description;
      let dimension := unit_dimension unit in
      '(negated, k, signed_values, times) ← locate st data_set sign_col;
      '(st, signed_values, negated) ← apply_unit st unit signed_values negated;
      Ok (st,
          mkVariable (mkSamples times signed_values negated)
                     (Some dimension) (Some display_unit) (Unicode description),
          times)
  | _ => Raise ValueError
  end.

(** The loop; [last_times] is the binding of [times], which the loop
    leaves behind for the variable Time. *)
Fixpoint make_variables (items : list (string * list Z)) (st : store F)
    (variables : list SimVar) (last_times : option (arr F))
  : result (store F * list SimVar * option (arr F)) :=
  match items with
  | [] => Ok (st, variables, last_times)
  | (description, row) :: items' =>
      '(st, v, times) ← make_variable st description row;
      make_variables items' st (variables ++ [v]) (Some times)
  end.

(** [dict(pairs)]: a later pair replaces an earlier one of the same key. *)
Definition dict {V} (pairs : list (string * V)) : gmap string V :=
  foldl (λ d kv, <[kv.1 := kv.2]> d) ∅ pairs.

(** [m[:, 0:2]], row by row. *)
Definition first_two_columns (m : ndarray Z) : list (list Z) :=
  Py.slice 0 2 <$> rows m.

(** Version 1.1.  The result is the dictionary of variables together
    with the trajectory matrices that the views of its samples share.
    [units_included] (line 332) is computed from [names] and used nowhere;
    it is left out. *)
Definition readsim_1_1 (data : gmap string (value F))
  : result (gmap string SimVar * store F) :=
  names ← Py.getitem data "name";
  trajectories ← extract_trajectories (S (size data)) 1 data [];
  descriptions ← (v ← Py.getitem data "description"; as_strings v);
  dataInfo ← (v ← Py.getitem data "dataInfo"; as_int2 v);
  '(st, variables, last_times) ←
    make_variables (zip descriptions (first_two_columns dataInfo))
                   trajectories [] None;
  names ← as_strings names;
  let variables := dict (zip names variables) in
  match last_times with
  | None => Raise (NameError "times")
  | Some times =>
      Ok (<["Time" := mkVariable (mkSamples times times false)
                        (Some second_dimension) (Some "s") (Bytes "Time")]>
            variables, st)
  end.

(** The names this module binds at its top level.  natu's unit [s] is
    imported under the name [second]; no statement binds [s]. *)
Definition module_names : list string :=
  ["np"; "re"; "namedtuple"; "ss"; "count"; "U"; "Exponents"; "second";
   "loadmat"; "chars_to_strings"; "PY2"; "Variable"; "next_nonblank";
   "Samples"; "get_strings"; "loadtxt"; "read"; "readsim"; "readlin"].

(** Reading [name._value] for a global name of the module. *)
Definition global_value (name : string) : result F :=
  if String.eqb name "second" then Ok second_value
  else if existsb (String.eqb name) module_names then Raise AttributeError
  else Raise (NameError name).

(** [enumerate(names)] into the dictionary of version 1.0. *)
Fixpoint columns_1_0 (traj : ndarray F) (times : arr F) (i : Z)
    (names : list string) : result (list (string * SimVar)) :=
  match names with
  | [] => Ok []
  | name :: names' =>
      j ← col_index traj i;
      rest ← columns_1_0 traj times (i + 1) names';
      Ok ((name, mkVariable (mkSamples times (View 0 j) false)
                            None None (Bytes EmptyString)) :: rest)
  end.

(** Version 1.0: [times = traj[:, 0]*s._value].  The store of the result
    holds the one matrix [data]. *)
Definition readsim_1_0 (data : gmap string (value F))
  : result (gmap string SimVar * store F) :=
  traj ← (v ← Py.getitem data "data"; as_float2 v);
  t ← col_index traj 0;
  s_value ← global_value "s";
  let times := Fresh ((λ x, fmul x s_value) <$> column t traj) in
  names ← (v ← Py.getitem data "names"; as_strings v);
  pairs ← columns_1_0 traj times 0 names;
  Ok (dict pairs, [traj]).

(** [Aclass[i]] *)
Definition item (Aclass : list string) (i : nat) : result string :=
  match Aclass !! i with
  | Some s => Ok s
  | None => Raise IndexError
  end.

(** [readsim], after [read] has returned [data] and [Aclass]. *)
Definition readsim_loaded (fname : string)
    (data : gmap string (value F)) (Aclass : list string)
  : result (gmap string SimVar * store F) :=
  kind ← item Aclass 0;
  if String.eqb kind "AlinearSystem" then
    Raise (AssertionError (fname +:+ " is a linearization result.  Use LinRes instead."))
  else if negb (String.eqb kind "Atrajectory") then
    Raise (AssertionError (fname +:+ " is not a simulation or linearization result."))
  else
    version ← item Aclass 1;
    if String.eqb version "1.1" then readsim_1_1 data
    else if String.eqb version "1.0" then readsim_1_0 data
    else Raise (AssertionError
      "The version of the Dymola-formatted result file (%s) isn't supported.").

Definition readsim (read : string → bool → result (gmap string (value F) * list string))
    (fname : string) (constants_only : bool)
  : result (gmap string SimVar * store F) :=
  '(data, Aclass) ← read fname constants_only;
  readsim_loaded fname data Aclass.

End Readsim.
Arguments parse_description {F Dim ustring} natu_units decode_utf8 description.
Arguments apply_unit {F _ Dim} st unit signed_values negated.
Arguments make_variable {F _ Dim ustring} natu_units decode_utf8 st description row.
Arguments make_variables {F _ Dim ustring} natu_units decode_utf8 items st variables last_times.
Arguments readsim_1_1 {F _ Dim ustring} natu_units second_value second_dimension decode_utf8 data.
Arguments readsim_loaded {F _ Dim ustring} natu_units second_value second_dimension decode_utf8 fname data Aclass.
Arguments readsim {F _ Dim ustring} natu_units second_value second_dimension decode_utf8 read fname constants_only.

(** ** The linearization assembler *)

Section Slices.
Context {A : Type}.
Implicit Type m : ndarray A.

(** The four slices of the module; each bound is clamped as Python
    clamps a slice bound. *)
Definition width_to (n : Z) m : nat := Py.bound (ncols m) n.
Definition width_from (n : Z) m : nat := (ncols m - Py.bound (ncols m) n)%nat.

(** [m[:n, :n]] *)
Definition top_left (n : Z) m : ndarray A :=
  {| ncols := width_to n m;
     rows := take (width_to n m) <$> Py.slice_to n (rows m) |}.
(** [m[:n, n:]] *)
Definition top_right (n : Z) m : ndarray A :=
  {| ncols := width_from n m;
     rows := drop (Py.bound (ncols m) n) <$> Py.slice_to n (rows m) |}.
(** [m[n:, :n]] *)
Definition bottom_left (n : Z) m : ndarray A :=
  {| ncols := width_to n m;
     rows := take (width_to n m) <$> Py.slice_from n (rows m) |}.
(** [m[n:, n:]] *)
Definition bottom_right (n : Z) m : ndarray A :=
  {| ncols := width_from n m;
     rows := drop (Py.bound (ncols m) n) <$> Py.slice_from n (rows m) |}.

(** The Python list [[[]]]: one row without entries. *)
Definition empty_block : ndarray A := {| ncols := 0; rows := [[]] |}.
End Slices.

Record LinRes (F Sys : Type) : Type := mkLinRes {
  sys : Sys;
  state_names : list string;
  input_names : list string;
  output_names : list string;
}.
Arguments mkLinRes {F Sys} sys state_names input_names output_names.
Arguments sys {F Sys} _.
Arguments state_names {F Sys} _.
Arguments input_names {F Sys} _.
Arguments output_names {F Sys} _.

Section Readlin.
Context {F : Type}.

(** [control.matlab.ss(A, B, C, D)]: the state-space container of the
    control library, which may refuse the four matrices. *)
Variable Sys : Type.
Variable ss : ndarray F → ndarray F → ndarray F → ndarray F → result Sys.

(** [data['nx'][0]]: the first row of the matrix [nx], used as a number,
    which numpy allows for an array of one integer. *)
Definition state_count (v : value F) : result Z :=
  match v with
  | Int2 m =>
      match rows m with
      | [] => Raise IndexError
      | [nx] :: _ => Ok nx
      | _ :: _ => Raise Unsupported
      end
  | _ => Raise Unsupported
  end.

(** The sizes [nx], [nu], [ny] and the four matrices that [readlin] hands
    to [ss] (lines 459 to 468). *)
Definition system_matrices (ABCD : ndarray F) (nx : Z)
  : Z * Z * (ndarray F * ndarray F * ndarray F * ndarray F) :=
  let nu := Z.of_nat (ncols ABCD) - nx in
  let ny := Z.of_nat (nrows ABCD) - nx in
  let A := if 0 <? nx then top_left nx ABCD else empty_block in
  let B := if (0 <? nx) && (0 <? nu) then top_right nx ABCD else empty_block in
  let C := if (0 <? nx) && (0 <? ny) then bottom_left nx ABCD else empty_block in
  let D := if (0 <? nu) && (0 <? ny) then bottom_right nx ABCD else empty_block in
  (nu, ny, (A, B, C, D)).

(** The three lists of names (lines 472 to 475). *)
Definition system_names (xuyName : list string) (nx nu : Z)
  : list string * list string * list string :=
  (Py.slice_to nx xuyName, Py.slice nx (nx + nu) xuyName,
   Py.slice_from (nx + nu) xuyName).

(** [readlin], after [read] has returned [data] and [Aclass]. *)
Definition readlin_loaded (fname : string)
    (data : gmap string (value F)) (Aclass : list string)
  : result (LinRes F Sys) :=
  kind ← match Aclass !! 0%nat with
         | Some s => Ok s
         | None => Raise IndexError
         end;
  if String.eqb kind "Atrajectory" then
    Raise (AssertionError (fname +:+ " is a simulation result.  Use SimRes instead."))
  else if negb (String.eqb kind "AlinearSystem") then
    Raise (AssertionError (fname +:+ " is not a simulation or linearization result."))
  else
    ABCD ← (v ← Py.getitem data "ABCD";
            match v with Float2 m => Ok m | _ => Raise Unsupported end);
    nx ← (v ← Py.getitem data "nx"; state_count v);
    let '(nu, ny, (A, B, C, D)) := system_matrices ABCD nx in
    s ← ss A B C D;
    xuyName ← (v ← Py.getitem data "xuyName";
               match v with StrList l => Ok l | _ => Raise Unsupported end);
    let '(xs, us, ys) := system_names xuyName nx nu in
    Ok (mkLinRes s xs us ys).

Definition readlin (read : string → bool → result (gmap string (value F) * list string))
    (fname : string) : result (LinRes F Sys) :=
  '(data, Aclass) ← read fname false;
  readlin_loaded fname data Aclass.

End Readlin.
Arguments readlin_loaded {F Sys} ss fname data Aclass.
Arguments readlin {F Sys} ss read fname.

(** ** The specification's reading of the assemblers *)

Section Spec.
Context {F : Type}.


(** The block of [h] rows and [w] columns whose top-left entry is entry
    ([r0], [c0]) of [m], entry by entry. *)
Definition block_spec {A} (r0 c0 h w : nat) (m : ndarray A) : ndarray A :=
  {| ncols := w;
     rows := (λ i, omap (λ j, rows m !! i ≫= (.!! j)) (seq c0 w)) <$> seq r0 h |}.

(** The four matrices in the specification's words, for the counts
    [nx], [nu], [ny]. *)
Definition system_matrices_spec (ABCD : ndarray F) (nx nu ny : nat)
  : ndarray F * ndarray F * ndarray F * ndarray F :=
  ((if (nx =? 0)%nat then empty_block else block_spec 0 0 nx nx ABCD),
   (if (nx =? 0)%nat || (nu =? 0)%nat then empty_block else block_spec 0 nx nx nu ABCD),
   (if (nx =? 0)%nat || (ny =? 0)%nat then empty_block else block_spec nx 0 ny nx ABCD),
   (if (nu =? 0)%nat || (ny =? 0)%nat then empty_block else block_spec nx nx ny nu ABCD)).

(** The normalization of a unit clause in the specification's words:
    every "." becomes the multiplication sign, then the ohm symbol gets
    its lower-case spelling. *)
Fixpoint dots_to_stars (s : string) : string :=
  match s with
  | EmptyString => EmptyString
  | String c s' => String (if Ascii.eqb c "." then "*"%char else c) (dots_to_stars s')
  end.
Definition normalize_unit (clause : string) : string :=
  Str.replace "Ohm" "ohm" (dots_to_stars clause).

(** [c] occurs in [s]. *)
Fixpoint occurs (c : ascii) (s : string) : bool :=
  match s with
  | EmptyString => false
  | String c' s' => Ascii.eqb c' c || occurs c s'
  end.
End Spec.

(** ** Concrete instances, for the examples *)

(** Integers as array elements. *)
#[global] Instance Z_numeric : Numeric Z :=
  {| fneg := Z.opp; fmul := Z.mul; fne_one := λ x, negb (x =? 1) |}.

Module Examples.

Definition nl : string := String "010" EmptyString.

(** A conversion of decimal digits, for the number texts of the
    examples. *)
Definition atoz (s : string) : option Z :=
  match s with
  | EmptyString => None
  | _ => if forallb Str.is_digit (list_ascii_of_string s)
         then Some (Z.of_nat (Str.digits_value O s)) else None
  end.

(** A unit engine that knows the kelvin, the volt, the farad, the ohm, the
    newton metre and, as a LambdaUnit, the degree Celsius (here: plus
    273); the dimensions are numbered. *)
Definition units (u : string) : result (Unit nat Z) :=
  if String.eqb u "K" then Ok (ScalarUnit 1%nat 1)
  else if String.eqb u "V" then Ok (ScalarUnit 2%nat 1000)
  else if String.eqb u "F" then Ok (ScalarUnit 3%nat 1)
  else if String.eqb u "ohm" then Ok (ScalarUnit 4%nat 1)
  else if String.eqb u "N*m" then Ok (ScalarUnit 5%nat 1)
  else if String.eqb u "degC" then Ok (LambdaUnit 1%nat (λ x, x + 273))
  else Raise (KeyError u).

(** Decoding of a byte string of ASCII characters. *)
Definition decode (s : string) : result string := Ok s.

(** Two trajectory matrices: [data_1] of two columns, [data_2] of
    three. *)
Definition data_1 : ndarray Z := Ndarray 2 [[0; 7]; [1; 7]].
Definition data_2 : ndarray Z := Ndarray 3 [[0; 10; 20]; [1; 11; 21]; [2; 12; 22]].
Definition trajectories : store Z := [data_1; data_2].

(** A matrix [ABCD] of shape (3, 4). *)
Definition ABCD : ndarray Z :=
  Ndarray 4 [[11; 12; 13; 14]; [21; 22; 23; 24]; [31; 32; 33; 34]].

(** A character matrix from a list of lines of equal length. *)
Definition chars (ls : list string) (width : nat) : ndarray ascii :=
  Ndarray width (list_ascii_of_string <$> ls).


(** An [Aclass] matrix of four lines. *)
Definition Aclass4 (third fourth : string) : ndarray ascii :=
  chars ["Atrajectory"; "1.1        "; third; fourth] 11.


(** The matrices of a file of version 1.0. *)
Definition file_1_0 : gmap string (value Z) :=
  <["data" := Float2 data_2]> {["names" := StrList ["Time"; "x"; "y"]]}.

(** A [read] that returns the given matrices and lines of Aclass. *)
Definition reads (data : gmap string (value Z)) (Aclass : list string)
  : string → bool → result (gmap string (value Z) * list string) :=
  λ _ _, Ok (data, Aclass).

(** A state-space container that keeps the four matrices as they come. *)
Definition ss (A B C D : ndarray Z)
  : result (ndarray Z * ndarray Z * ndarray Z * ndarray Z) :=
  Ok (A, B, C, D).

(** A text file: one header line and a block of two rows with
    comments. *)
Definition text_file : list string :=
  ["#1" +:+ nl; "float x (2,1)" +:+ nl;
   "15 # first row" +:+ nl; "25 # second row" +:+ nl].

(** The matrices of a linearization with two states, two inputs and one
    output. *)
Definition linear_file : gmap string (value Z) :=
  <["ABCD" := Float2 ABCD]>
    (<["nx" := Int2 (Ndarray 1 [[2]])]>
       {["xuyName" := StrList ["x1"; "x2"; "u1"; "u2"; "y1"]]}).

End Examples.

(** ** The other layout of a file, for the round trips *)

Section Layouts.
Context {F : Type}.

(** A 2-D array whose rows all have the length of axis 1, as [loadmat]
    returns them. *)
Definition array2 (v : value F) : Prop :=
  match v with
  | Float2 m => wf m
  | Int2 m => wf m
  | Char2 m => wf m
  | _ => False
  end.

(** The same matrix as a file of the transposed layout stores it. *)
Definition stored_transposed (v : value F) : value F :=
  match v with
  | Float2 m => Float2 (transpose m)
  | Int2 m => Int2 (transpose m)
  | Char2 m => Char2 (transpose m)
  | _ => v
  end.

(** What [read] makes of a matrix of a binary file in the normal layout:
    a character matrix becomes the list of its lines. *)
Definition as_read (v : value F) : value F :=
  match v with
  | Char2 m => StrList (get_strings m)
  | _ => v
  end.

End Layouts.

(** [s] followed by [n] blanks: a line of a character matrix. *)
Fixpoint blanks (n : nat) : string :=
  match n with
  | O => EmptyString
  | S n' => String " " (blanks n')
  end.
Definition padded (width : nat) (s : string) : string :=
  s +:+ blanks (width - String.length s).

(** The last character of [s] is none of [cs] ([s] may be empty). *)
Fixpoint ends_clean (cs : string) (s : string) : bool :=
  match s with
  | EmptyString => true
  | String c EmptyString => negb (Str.mem c cs)
  | String _ s' => ends_clean cs s'
  end.

(** Two matrices side by side, and one above the other. *)
Definition beside {A} (m1 m2 : ndarray A) : ndarray A :=
  {| ncols := (ncols m1 + ncols m2)%nat;
     rows := zip_with app (rows m1) (rows m2) |}.
Definition above {A} (m1 m2 : ndarray A) : ndarray A :=
  {| ncols := ncols m1; rows := rows m1 ++ rows m2 |}.

(** ** More concrete files, for the examples *)

Module MoreExamples.

(** The matrices of a binary file besides Aclass: the trajectory matrix
    and the names, as a character matrix. *)
Definition matrices : gmap string (value Z) :=
  <["data_1" := Float2 Examples.data_2]>
    {["name" := Char2 (Examples.chars ["Time"; "x   "; "y   "] 4)]}.

(** What [loadtxt] returns for a text file with a block [data_1], a block
    [ABCD] and the block of Aclass. *)
Definition text_matrices : gmap string (value Z) :=
  <["data_1" := Float2 (transpose Examples.data_2)]>
    (<["ABCD" := Float2 (transpose Examples.ABCD)]>
       {["Aclass" := StrList ["AlinearSystem"; "1.0"]]}).

(** The lines of a block [float data_1 (3,3)]. *)
Definition block_lines : list string :=
  ["0 10 20" +:+ Examples.nl; "1 11 21" +:+ Examples.nl; "2 12 22" +:+ Examples.nl].

(** The matrices of a simulation result of version 1.1 with three
    variables; the second and the third share column 3 of [data_2]. *)
Definition file_1_1 : gmap string (value Z) :=
  <["name" := StrList ["T1"; "v"; "T2"]]>
    (<["description" := StrList ["Temperature [K]"; "Voltage [V]";
                                 "Temperature [degC]"]]>
       (<["dataInfo" := Int2 (Ndarray 4 [[2; 2; 0; -1]; [2; -3; 0; -1];
                                         [2; 3; 0; -1]])]>
          (<["data_1" := Float2 Examples.data_1]>
             {["data_2" := Float2 Examples.data_2]}))).

(** A dictionary with [data_1] and [data_3] but no [data_2]. *)
Definition gap_file : gmap string (value Z) :=
  <["data_1" := Float2 Examples.data_1]> {["data_3" := Float2 Examples.data_2]}.

(** A simulation result of version 1.1 whose first row of dataInfo has 0 as
    sign column and whose second row has 0 as data set. *)
Definition zero_file : gmap string (value Z) :=
  <["name" := StrList ["a"; "b"]]>
    (<["description" := StrList ["Last column [K]"; "Last matrix [V]"]]>
       (<["dataInfo" := Int2 (Ndarray 4 [[2; 0; 0; -1]; [0; -2; 0; -1]])]>
          (<["data_1" := Float2 Examples.data_1]>
             {["data_2" := Float2 Examples.data_2]}))).

(** A simulation result of version 1.1 without any matrix [data_N]; the
    row of its variable has 0 as data set. *)
Definition no_data_file : gmap string (value Z) :=
  <["name" := StrList ["a"]]>
    (<["description" := StrList ["A variable [K]"]]>
       {["dataInfo" := Int2 (Ndarray 4 [[0; 1; 0; -1]])]}).

(** A simulation result of version 1.1 whose trajectory matrix has rows
    but no column; the row of its variable has 0 as sign column. *)
Definition no_column_file : gmap string (value Z) :=
  <["name" := StrList ["a"]]>
    (<["description" := StrList ["A variable [K]"]]>
       (<["dataInfo" := Int2 (Ndarray 4 [[1; 0; 0; -1]])]>
          {["data_1" := Float2 (Ndarray 0 [[]; []])]})).

(** The Aclass of a result file as Dymola writes it: the layout is the
    fourth line, after the line that names the generator. *)
Definition Aclass_dymola (fourth : string) : ndarray ascii :=
  Examples.chars [padded 20 "Atrajectory"; padded 20 "1.1";
                  padded 20 "Generated by Dymosim"; padded 20 fourth] 20.

(** Two variables whose rows of dataInfo name column 3 of [data_2], one
    of them negated; the unit of both is the volt. *)
Definition shared_items : list (string * list Z) :=
  [("Voltage [V]", [2; -3]); ("Potential [V]", [2; 3])].

End MoreExamples.

(** The two arrays of a variable have one length, in a given store. *)
Definition balanced {F Dim ustring} (st : store F) (v : SimVariable F Dim ustring)
  : Prop :=
  length (deref st (signed_values (samples v)))
  = length (deref st (times (samples v))).

(** * Properties *)

(** ** Indexing *)

Lemma bind_ok {A B} (a : A) (k : A → result B) : (Ok a ≫= k) = k a.
Proof. reflexivity. Qed.

Lemma bind_raise {A B} e (k : A → result B) : (Raise e ≫= k) = Raise e.
Proof. reflexivity. Qed.

Lemma index_ok_lt len i k : Py.index len i = Ok k → (k < len)%nat.
Proof.
  unfold Py.index. intros Hi.
  destruct (0 <=? i) eqn:H0, (i <? Z.of_nat len) eqn:H1; simpl in Hi;
    try (injection Hi as <-; lia);
    destruct (- Z.of_nat len <=? i) eqn:H2, (i <? 0) eqn:H3; simpl in Hi;
    try discriminate; injection Hi as <-; lia.
Qed.

Lemma index_nonneg len i :
  0 <= i → i < Z.of_nat len → Py.index len i = Ok (Z.to_nat i).
Proof.
  intros H0 H1. unfold Py.index.
  replace (0 <=? i) with true by lia. replace (i <? Z.of_nat len) with true by lia.
  reflexivity.
Qed.


Lemma index_empty i : Py.index 0 i = Raise IndexError.
Proof.
  unfold Py.index. change (Z.of_nat 0) with 0.
  replace ((0 <=? i) && (i <? 0)) with false by lia.
  replace ((- 0 <=? i) && (i <? 0)) with false by lia.
  reflexivity.
Qed.

Lemma index_raise len i e : Py.index len i = Raise e → e = IndexError.
Proof.
  unfold Py.index.
  destruct (_ && _); [discriminate|]. destruct (_ && _); [discriminate|].
  congruence.
Qed.

(** ** Samples *)

(** C2.  The property [values] is the element-wise negation of
    [signed_values] when [negated] is set and is [signed_values] itself, the
    same array and not a copy, when it is not; so the values of
    (t, v, true) are the negated values of (t, v, false).  Both Samples hold
    the same array [v]: the negated array is made at each access and is no
    field of the Samples. *)
Theorem values_negation {F} `{!Numeric F} (st : store F) (t v : arr F) :
  (∀ S : Samples F,
      deref st (values st S)
      = if negated S then fneg <$> deref st (signed_values S)
        else deref st (signed_values S))
  ∧ deref st (values st (mkSamples t v true))
    = fneg <$> deref st (values st (mkSamples t v false))
  ∧ values st (mkSamples t v false) = v
  ∧ signed_values (mkSamples t v true) = signed_values (mkSamples t v false).
Proof.
  split; [|split; [|split]]; try reflexivity.
  intros [t' v' []]; reflexivity.
Qed.

(** ** The rows of dataInfo *)

Section LocateProperties.
Context {F : Type}.
Implicit Types (trajectories : store F) (traj : ndarray F).

Lemma col_index_zero traj :
  col_index traj 0 = if (0 <? Z.of_nat (ncols traj)) then Ok 0%nat else Raise IndexError.
Proof.
  unfold col_index. destruct (0 <? Z.of_nat (ncols traj)) eqn:Hc.
  - rewrite index_nonneg by lia. reflexivity.
  - replace (ncols traj) with 0%nat by lia. apply index_empty.
Qed.


End LocateProperties.




(** ** Units *)

Section UnitProperties.
Context {F : Type} `{!Numeric F}.

Lemma column_scale_same (j : nat) (v : F) (m : ndarray F) :
  column j (scale_column j v m) = (λ x, fmul x v) <$> column j m.
Proof.
  unfold column, scale_column. simpl.
  induction (rows m) as [|r rs IH]; [reflexivity|].
  csimpl. rewrite list_lookup_alter_eq.
  destruct (r !! j); csimpl; rewrite IH; reflexivity.
Qed.

Lemma column_scale_other (j j' : nat) (v : F) (m : ndarray F) :
  j ≠ j' → column j' (scale_column j v m) = column j' m.
Proof.
  intros Hne. unfold column, scale_column. simpl.
  induction (rows m) as [|r rs IH]; [reflexivity|].
  csimpl. rewrite list_lookup_alter_ne by done.
  rewrite IH. reflexivity.
Qed.


Lemma vectorize_ok f (st : store F) a r :
  vectorize f st a = Ok r → r = Fresh (f <$> deref st a).
Proof.
  unfold vectorize. destruct (deref st a); [discriminate|]. congruence.
Qed.

End UnitProperties.



(** ** The kind of result *)

(** C9.  When [read] has returned, [readsim] raises the assertion error
    that points to the linearization reader if the first line of Aclass is
    "AlinearSystem", and the one that says the file is neither kind of
    result if that line is not "Atrajectory" either; [readlin] raises in
    the same way for "Atrajectory" and for an unknown kind.  What is raised
    is an exception: nothing of a result is returned. *)
Theorem result_kind_checked {F} `{!Numeric F} {Dim ustring Sys : Type}
    (natu_units : string → result (Unit Dim F)) (second_value : F)
    (second_dimension : Dim) (decode_utf8 : string → result ustring)
    (ss : ndarray F → ndarray F → ndarray F → ndarray F → result Sys)
    (read : string → bool → result (gmap string (value F) * list string))
    (fname : string) (constants_only : bool)
    (data : gmap string (value F)) (kind : string) (rest : list string) :
  (read fname constants_only = Ok (data, kind :: rest) →
   readsim natu_units second_value second_dimension decode_utf8 read
     fname constants_only
   = if String.eqb kind "AlinearSystem" then
       Raise (AssertionError
                (fname +:+ " is a linearization result.  Use LinRes instead."))
     else if String.eqb kind "Atrajectory" then
       readsim_loaded natu_units second_value second_dimension decode_utf8
         fname data (kind :: rest)
     else
       Raise (AssertionError
                (fname +:+ " is not a simulation or linearization result.")))
  ∧ (read fname false = Ok (data, kind :: rest) →
     readlin ss read fname
     = if String.eqb kind "Atrajectory" then
         Raise (AssertionError
                  (fname +:+ " is a simulation result.  Use SimRes instead."))
       else if String.eqb kind "AlinearSystem" then
         readlin_loaded ss fname data (kind :: rest)
       else
         Raise (AssertionError
                  (fname +:+ " is not a simulation or linearization result."))).
Proof.
  split; intros Hread.
  - unfold readsim. rewrite Hread, bind_ok. unfold readsim_loaded, item.
    change ((kind :: rest) !! 0%nat) with (Some kind). cbv beta iota.
    rewrite !bind_ok.
    destruct (String.eqb kind "AlinearSystem") eqn:Hlin; [reflexivity|].
    destruct (String.eqb kind "Atrajectory") eqn:Htraj; reflexivity.
  - unfold readlin. rewrite Hread, bind_ok. unfold readlin_loaded.
    change ((kind :: rest) !! 0%nat) with (Some kind). cbv beta iota.
    rewrite !bind_ok.
    destruct (String.eqb kind "Atrajectory") eqn:Htraj; [reflexivity|].
    destruct (String.eqb kind "AlinearSystem") eqn:Hlin; reflexivity.
Qed.

Lemma result_kind_checked_witness :
  readsim Examples.units 1 1%nat Examples.decode
    (Examples.reads ∅ ["AlinearSystem"; "1.1"]) "PID.mat" false
  = Raise (AssertionError "PID.mat is a linearization result.  Use LinRes instead.")
  ∧ readsim Examples.units 1 1%nat Examples.decode
      (Examples.reads ∅ ["Asomething"; "1.1"]) "PID.mat" false
    = Raise (AssertionError "PID.mat is not a simulation or linearization result.")
  ∧ readlin Examples.ss (Examples.reads ∅ ["Atrajectory"; "1.1"]) "Chua.mat"
    = Raise (AssertionError "Chua.mat is a simulation result.  Use SimRes instead.")
  ∧ readlin Examples.ss (Examples.reads ∅ ["Asomething"; "1.1"]) "Chua.mat"
    = Raise (AssertionError "Chua.mat is not a simulation or linearization result.").
Proof.
  split; [|split; [|split]].
  - exact (proj1 (result_kind_checked Examples.units 1 1%nat Examples.decode
                    Examples.ss (Examples.reads ∅ ["AlinearSystem"; "1.1"])
                    "PID.mat" false ∅ "AlinearSystem" ["1.1"]) eq_refl).
  - exact (proj1 (result_kind_checked Examples.units 1 1%nat Examples.decode
                    Examples.ss (Examples.reads ∅ ["Asomething"; "1.1"])
                    "PID.mat" false ∅ "Asomething" ["1.1"]) eq_refl).
  - exact (proj2 (result_kind_checked Examples.units 1 1%nat Examples.decode
                    Examples.ss (Examples.reads ∅ ["Atrajectory"; "1.1"])
                    "Chua.mat" false ∅ "Atrajectory" ["1.1"]) eq_refl).
  - exact (proj2 (result_kind_checked Examples.units 1 1%nat Examples.decode
                    Examples.ss (Examples.reads ∅ ["Asomething"; "1.1"])
                    "Chua.mat" false ∅ "Asomething" ["1.1"]) eq_refl).
Defined.

(** ** Version 1.0 *)

(** C7.  The branch of version 1.0 never returns its variables: after
    [data] and its column 0 have been read, [times = traj[:, 0]*s._value]
    looks up the name [s], which the module does not bind (natu's [s] is
    imported as [second]), and Python raises NameError.  On a file with a
    [data] matrix of three columns and three names the result is that
    NameError. *)
Theorem readsim_1_0_raises {F} `{!Numeric F} (Dim ustring : Type) (second_value : F)
    (data : gmap string (value F)) :
  Py.is_ok (readsim_1_0 Dim ustring second_value data) = false
  ∧ readsim Examples.units 1 1%nat Examples.decode
      (Examples.reads Examples.file_1_0 ["Atrajectory"; "1.0"]) "dsres.mat" false
    = Raise (NameError "s").
Proof.
  split; [|reflexivity].
  unfold readsim_1_0.
  destruct (Py.getitem data "data") as [v|e]; [|reflexivity].
  rewrite bind_ok. destruct (as_float2 v) as [traj|e]; [|reflexivity].
  rewrite bind_ok. destruct (col_index traj 0) as [t|e]; reflexivity.
Qed.

(** ** The layout of a binary file *)


(** ** The text scanner *)

Lemma before_comment (text comment : string) :
  occurs "#" text = false →
  Str.before "#" (text +:+ String "#" comment) = text.
Proof.
  induction text as [|c text IH]; simpl; [reflexivity|].
  destruct (Ascii.eqb c "#"); simpl; [discriminate|].
  intros Hno. rewrite IH by exact Hno. reflexivity.
Qed.

(** C8, as the code has it.  With one header line and the block
    [float x (2,1)] followed by two lines, each a number and a comment
    after "#", the scanner returns the dictionary with the one key [x]; the
    comments are cut off before the numbers are converted; the value is the
    transpose of the two rows read, the 1-by-2 matrix [[v1, v2]], because
    the parser of [float] ends in [.T]. *)
Theorem loadtxt_float_block {F} (atof : string → option F) (atoi : string → option Z)
    (header text1 text2 comment1 comment2 : string) (v1 v2 : F) :
  occurs "#" text1 = false → occurs "#" text2 = false →
  fromstring atof text1 = [v1] → fromstring atof text2 = [v2] →
  loadtxt atof atoi
    [header; "float x (2,1)" +:+ Examples.nl;
     text1 +:+ "#" +:+ comment1; text2 +:+ "#" +:+ comment2] None 1
  = Ok {["x" := Float2 (Ndarray 2 [[v1; v2]])]}.
Proof.
  intros Hno1 Hno2 Hv1 Hv2.
  change (text1 +:+ "#" +:+ comment1) with (text1 +:+ String "#" comment1).
  change (text2 +:+ "#" +:+ comment2) with (text2 +:+ String "#" comment2).
  pose proof (before_comment text1 comment1 Hno1) as Hline1.
  pose proof (before_comment text2 comment2 Hno2) as Hline2.
  remember (text1 +:+ String "#" comment1) as line1.
  remember (text2 +:+ String "#" comment2) as line2.
  unfold loadtxt. lazy -[Str.before fromstring insert empty singletonM].
  rewrite Hline1, Hline2, Hv1, Hv2.
  vm_compute. reflexivity.
Qed.

Lemma loadtxt_float_block_witness :
  loadtxt Examples.atoz Examples.atoz Examples.text_file None 1
  = Ok {["x" := Float2 (Ndarray 2 [[15; 25]])]}.
Proof.
  exact (loadtxt_float_block Examples.atoz Examples.atoz ("#1" +:+ Examples.nl)
           "15 " "25 " (" first row" +:+ Examples.nl) (" second row" +:+ Examples.nl)
           15 25 eq_refl eq_refl eq_refl eq_refl).
Defined.

(** C8, as the claim has it, fails: the value of [x] is not the 2-by-1
    matrix [[v1], [v2]]. *)
Lemma loadtxt_float_block_not_2_by_1 :
  loadtxt Examples.atoz Examples.atoz Examples.text_file None 1
  ≠ Ok {["x" := Float2 (Ndarray 1 [[15]; [25]])]}.
Proof.
  intros Heq.
  assert (loadtxt Examples.atoz Examples.atoz Examples.text_file None 1
          = Ok {["x" := Float2 (Ndarray 2 [[15; 25]])]}) as Hrun
    by (vm_compute; reflexivity).
  rewrite Hrun in Heq.
  apply (f_equal (λ r : result (gmap string (value Z)),
                    match r with Ok d => d !! "x" | Raise _ => None end)) in Heq.
  rewrite !lookup_singleton_eq in Heq. discriminate.
Qed.

(** ** The description parser *)

Lemma occurs_append (c : ascii) (a b : string) :
  occurs c (a +:+ b) = occurs c a || occurs c b.
Proof.
  induction a as [|x a IH]; simpl; [reflexivity|].
  rewrite IH. apply orb_assoc.
Qed.

Lemma rsplit1_absent (sep : ascii) (s : string) :
  occurs sep s = false → Str.rsplit1 sep s = None.
Proof.
  induction s as [|c s IH]; simpl; [reflexivity|].
  destruct (Ascii.eqb c sep); simpl; [discriminate|].
  intros Hno. rewrite IH by exact Hno. reflexivity.
Qed.

Lemma replace_dots (s : string) : Str.replace "." "*" s = dots_to_stars s.
Proof.
  unfold Str.replace. induction s as [|c s IH]; cbn -[ascii_dec]; [reflexivity|].
  destruct (ascii_dec "." c) as [<-|Hne].
  - cbn -[ascii_dec]. rewrite IH. destruct s; reflexivity.
  - rewrite IH. destruct (Ascii.eqb c ".") eqn:Heq; [|reflexivity].
    apply Ascii.eqb_eq in Heq. congruence.
Qed.

Lemma occurs_dots_to_stars (s : string) :
  occurs "|" (dots_to_stars s) = occurs "|" s.
Proof.
  induction s as [|c s IH]; simpl; [reflexivity|].
  rewrite IH. destruct (Ascii.eqb c ".") eqn:Heq; [|reflexivity].
  apply Ascii.eqb_eq in Heq. subst c. reflexivity.
Qed.

Lemma occurs_replace_from (c : ascii) (old new s : string) (skip : nat) :
  occurs c new = false → occurs c s = false →
  occurs c (Str.replace_from skip old new s) = false.
Proof.
  intros Hnew. revert skip. induction s as [|x s IH]; intros skip; simpl; [reflexivity|].
  intros Hs. apply orb_false_iff in Hs as [Hx Hs].
  destruct skip as [|k]; [|apply IH, Hs].
  match goal with |- context [if ?b then _ else _] => destruct b end.
  - rewrite occurs_append, Hnew. simpl. apply IH, Hs.
  - simpl. rewrite Hx. simpl. apply IH, Hs.
Qed.

Lemma no_bar_after_normalize (clause : string) :
  occurs "|" clause = false →
  Str.rsplit1 "|" (Str.replace "Ohm" "ohm" (Str.replace "." "*" clause)) = None.
Proof.
  intros Hno. apply rsplit1_absent. unfold Str.replace at 1.
  apply occurs_replace_from; [reflexivity|].
  rewrite replace_dots, occurs_dots_to_stars. exact Hno.
Qed.

(** C6, as the code has it.  "Capacitance [F]" gives the unit string "F",
    the display unit "F" and the description "Capacitance".  In
    "Resistance [Ohm|kOhm]" the whole unit clause is normalized before it
    is split at "|": the unit string is "ohm" and the display unit is
    "kohm".  When the clause has no "|" the display unit is the normalized
    unit string, in which every "." of the clause is a "*" and every "Ohm"
    an "ohm".  The unit string goes to natu and the description is
    decoded. *)
Theorem parse_description_units {F Dim ustring : Type}
    (natu_units : string → result (Unit Dim F))
    (decode_utf8 : string → result ustring)
    (description text clause : string) :
  parse_description natu_units decode_utf8 "Capacitance [F]"
  = (unit ← natu_units "F"; d ← decode_utf8 "Capacitance"; Ok (unit, "F", d))
  ∧ parse_description natu_units decode_utf8 "Resistance [Ohm|kOhm]"
    = (unit ← natu_units "ohm"; d ← decode_utf8 "Resistance"; Ok (unit, "kohm", d))
  ∧ (Str.rsplit1 "[" (Str.rstrip "]" description) = Some (text, clause) →
     occurs "|" clause = false →
     parse_description natu_units decode_utf8 description
     = (unit ← natu_units (normalize_unit clause);
        d ← decode_utf8 (Str.rstrip Str.whitespace text);
        Ok (unit, normalize_unit clause, d))).
Proof.
  split; [reflexivity|]. split; [reflexivity|].
  intros Hsplit Hno. unfold parse_description, description_parts.
  rewrite Hsplit, (no_bar_after_normalize _ Hno).
  unfold normalize_unit. rewrite replace_dots.
  destruct (Str.replace "Ohm" "ohm" (dots_to_stars clause)); reflexivity.
Qed.

Lemma parse_description_units_witness :
  parse_description Examples.units Examples.decode "Torque at the shaft  [N.m]"
  = Ok (ScalarUnit 5%nat 1, "N*m", "Torque at the shaft").
Proof.
  exact (proj2 (proj2 (parse_description_units Examples.units Examples.decode
                         "Torque at the shaft  [N.m]" "Torque at the shaft  " "N.m"))
           eq_refl eq_refl).
Defined.

(** C6, as the claim has it, fails: the display unit of
    "Resistance [Ohm|kOhm]" is not "kOhm". *)
Lemma display_unit_is_normalized :
  ¬ ∃ (unit : Unit nat Z) (d : string),
      parse_description Examples.units Examples.decode "Resistance [Ohm|kOhm]"
      = Ok (unit, "kOhm", d).
Proof.
  intros (unit & d & Hparse).
  assert (parse_description Examples.units Examples.decode "Resistance [Ohm|kOhm]"
          = Ok (ScalarUnit 4%nat 1, "kohm", "Resistance")) as Hrun by reflexivity.
  rewrite Hrun in Hparse. discriminate.
Qed.

(** ** The linearization assembler *)

Section SliceProperties.
Context {A : Type}.
Implicit Types (l : list A) (m : ndarray A).

Lemma bound_nonneg (len : nat) (b : Z) :
  0 <= b → Py.bound len b = Nat.min (Z.to_nat b) len.
Proof. intros Hb. unfold Py.bound. replace (b <? 0) with false by lia. lia. Qed.

Lemma take_min l (n : nat) : take (Nat.min n (length l)) l = take n l.
Proof.
  destruct (decide (n ≤ length l)%nat) as [Hle|Hgt].
  - rewrite Nat.min_l by lia. reflexivity.
  - rewrite Nat.min_r by lia. rewrite !take_ge by lia. reflexivity.
Qed.

Lemma drop_min l (n : nat) : drop (Nat.min n (length l)) l = drop n l.
Proof.
  destruct (decide (n ≤ length l)%nat) as [Hle|Hgt].
  - rewrite Nat.min_l by lia. reflexivity.
  - rewrite Nat.min_r by lia. rewrite !drop_ge by lia. reflexivity.
Qed.

Lemma slice_to_nonneg l (b : Z) : 0 <= b → Py.slice_to b l = take (Z.to_nat b) l.
Proof. intros Hb. unfold Py.slice_to. rewrite bound_nonneg by lia. apply take_min. Qed.

Lemma slice_from_nonneg l (a : Z) : 0 <= a → Py.slice_from a l = drop (Z.to_nat a) l.
Proof. intros Ha. unfold Py.slice_from. rewrite bound_nonneg by lia. apply drop_min. Qed.

Lemma slice_nonneg l (a b : Z) :
  0 <= a → a <= b →
  Py.slice a b l = take (Z.to_nat b - Z.to_nat a) (drop (Z.to_nat a) l).
Proof.
  intros Ha Hab. unfold Py.slice. rewrite !bound_nonneg by lia.
  rewrite drop_min.
  destruct (decide (Z.to_nat b ≤ length l)%nat) as [Hb|Hb].
  - rewrite (Nat.min_l (Z.to_nat b)), (Nat.min_l (Z.to_nat a)) by lia. reflexivity.
  - rewrite (Nat.min_r (Z.to_nat b)) by lia.
    rewrite !take_ge; [reflexivity| |]; rewrite length_drop; lia.
Qed.

(** A run of consecutive indices reads the same elements as [drop] and
    [take]. *)
Lemma omap_lookup_seq l (c0 w : nat) :
  (c0 + w ≤ length l)%nat →
  omap (λ j, l !! j) (seq c0 w) = take w (drop c0 l).
Proof.
  revert c0. induction w as [|w IH]; intros c0 Hle; [by rewrite take_0|].
  destruct (lookup_lt_is_Some_2 l c0) as [x Hx]; [lia|].
  rewrite (drop_S _ _ _ Hx). csimpl. rewrite Hx. csimpl.
  rewrite IH by lia. reflexivity.
Qed.

Lemma fmap_lookup_seq {B C} (g : option C → B) (l : list C) (r0 h : nat) :
  (r0 + h ≤ length l)%nat →
  (λ i, g (l !! i)) <$> seq r0 h = (λ r, g (Some r)) <$> take h (drop r0 l).
Proof.
  revert r0. induction h as [|h IH]; intros r0 Hle; [by rewrite take_0|].
  destruct (lookup_lt_is_Some_2 l r0) as [x Hx]; [lia|].
  rewrite (drop_S _ _ _ Hx). csimpl. rewrite Hx.
  rewrite IH by lia. reflexivity.
Qed.

(** The block of the specification, by [take] and [drop]. *)
Lemma block_spec_rows m (r0 c0 h w : nat) :
  wf m → (r0 + h ≤ nrows m)%nat → (c0 + w ≤ ncols m)%nat →
  block_spec r0 c0 h w m
  = {| ncols := w; rows := (λ r, take w (drop c0 r)) <$> take h (drop r0 (rows m)) |}.
Proof.
  intros Hwf Hr Hc. unfold block_spec. f_equal.
  etransitivity;
    [exact (fmap_lookup_seq (λ o, omap (λ j, o ≫= (.!! j)) (seq c0 w))
              (rows m) r0 h Hr)|].
  apply Forall_fmap_ext. apply Forall_take, Forall_drop.
  eapply Forall_impl; [exact Hwf|]. intros r Hlen. simpl in *.
  apply omap_lookup_seq. lia.
Qed.

End SliceProperties.

Lemma positive_count (z : Z) :
  0 <= z → (0 <? z) = negb (Z.to_nat z =? 0)%nat.
Proof. intros Hz. destruct (Nat.eqb_spec (Z.to_nat z) 0); simpl; lia. Qed.

Section BlockProperties.
Context {A : Type}.
Implicit Types (m : ndarray A).

Lemma block_spec_shape m (r0 c0 h w : nat) :
  nrows (block_spec r0 c0 h w m) = h ∧ ncols (block_spec r0 c0 h w m) = w.
Proof.
  split; [|reflexivity].
  unfold nrows, block_spec. simpl. rewrite length_fmap. apply length_seq.
Qed.

Lemma block_spec_wf m (r0 c0 h w : nat) :
  wf m → (r0 + h ≤ nrows m)%nat → (c0 + w ≤ ncols m)%nat →
  wf (block_spec r0 c0 h w m).
Proof.
  intros Hwf Hr Hc. rewrite block_spec_rows by assumption.
  unfold wf. simpl. apply Forall_fmap, Forall_take, Forall_drop.
  eapply Forall_impl; [exact Hwf|]. intros r Hlen. simpl in *.
  rewrite length_take, length_drop. lia.
Qed.

Lemma top_left_spec m (nx : Z) :
  wf m → 0 <= nx →
  (Z.to_nat nx ≤ nrows m)%nat → (Z.to_nat nx ≤ ncols m)%nat →
  top_left nx m = block_spec 0 0 (Z.to_nat nx) (Z.to_nat nx) m.
Proof.
  intros Hwf Hnx Hr Hc. rewrite block_spec_rows by (assumption || lia).
  unfold top_left, width_to. rewrite bound_nonneg, Nat.min_l by lia.
  rewrite slice_to_nonneg by lia. reflexivity.
Qed.

Lemma top_right_spec m (nx : Z) :
  wf m → 0 <= nx →
  (Z.to_nat nx ≤ nrows m)%nat → (Z.to_nat nx ≤ ncols m)%nat →
  top_right nx m = block_spec 0 (Z.to_nat nx) (Z.to_nat nx) (ncols m - Z.to_nat nx) m.
Proof.
  intros Hwf Hnx Hr Hc. rewrite block_spec_rows by (assumption || lia).
  unfold top_right, width_from. rewrite bound_nonneg, Nat.min_l by lia.
  rewrite slice_to_nonneg by lia. f_equal. simpl.
  apply Forall_fmap_ext, Forall_take.
  eapply Forall_impl; [exact Hwf|]. intros r Hlen. simpl in *.
  rewrite take_ge; [reflexivity|]. rewrite length_drop. lia.
Qed.

Lemma bottom_left_spec m (nx : Z) :
  wf m → 0 <= nx →
  (Z.to_nat nx ≤ nrows m)%nat → (Z.to_nat nx ≤ ncols m)%nat →
  bottom_left nx m = block_spec (Z.to_nat nx) 0 (nrows m - Z.to_nat nx) (Z.to_nat nx) m.
Proof.
  intros Hwf Hnx Hr Hc. rewrite block_spec_rows by (assumption || lia).
  unfold bottom_left, width_to. rewrite bound_nonneg, Nat.min_l by lia.
  rewrite slice_from_nonneg by lia. f_equal. simpl.
  rewrite (take_ge (drop _ _)); [reflexivity|].
  rewrite length_drop. unfold nrows. lia.
Qed.

Lemma bottom_right_spec m (nx : Z) :
  wf m → 0 <= nx →
  (Z.to_nat nx ≤ nrows m)%nat → (Z.to_nat nx ≤ ncols m)%nat →
  bottom_right nx m
  = block_spec (Z.to_nat nx) (Z.to_nat nx)
      (nrows m - Z.to_nat nx) (ncols m - Z.to_nat nx) m.
Proof.
  intros Hwf Hnx Hr Hc. rewrite block_spec_rows by (assumption || lia).
  unfold bottom_right, width_from. rewrite bound_nonneg, Nat.min_l by lia.
  rewrite slice_from_nonneg by lia. f_equal.
  rewrite (take_ge (drop _ _)) by (rewrite length_drop; unfold nrows; lia).
  apply Forall_fmap_ext, Forall_drop.
  eapply Forall_impl; [exact Hwf|]. intros r Hlen. simpl in *.
  rewrite take_ge; [reflexivity|]. rewrite length_drop. lia.
Qed.

Lemma system_matrices_by_blocks (ABCD : ndarray A) (nx : Z) :
  wf ABCD → 0 <= nx →
  (Z.to_nat nx ≤ nrows ABCD)%nat → (Z.to_nat nx ≤ ncols ABCD)%nat →
  system_matrices ABCD nx
  = (Z.of_nat (ncols ABCD - Z.to_nat nx), Z.of_nat (nrows ABCD - Z.to_nat nx),
     system_matrices_spec ABCD (Z.to_nat nx)
       (ncols ABCD - Z.to_nat nx) (nrows ABCD - Z.to_nat nx)).
Proof.
  intros Hwf Hnx Hr Hc. unfold system_matrices, system_matrices_spec.
  replace (Z.of_nat (ncols ABCD) - nx) with (Z.of_nat (ncols ABCD - Z.to_nat nx)) by lia.
  replace (Z.of_nat (nrows ABCD) - nx) with (Z.of_nat (nrows ABCD - Z.to_nat nx)) by lia.
  rewrite !positive_count by lia. rewrite !Nat2Z.id.
  rewrite top_left_spec, top_right_spec, bottom_left_spec, bottom_right_spec
    by assumption.
  destruct (Z.to_nat nx =? 0)%nat, (ncols ABCD - Z.to_nat nx =? 0)%nat,
    (nrows ABCD - Z.to_nat nx =? 0)%nat; reflexivity.
Qed.

End BlockProperties.

Lemma system_names_by_counts (xuyName : list string) (nx : Z) (nu : nat) :
  0 <= nx →
  system_names xuyName nx (Z.of_nat nu)
  = (take (Z.to_nat nx) xuyName, take nu (drop (Z.to_nat nx) xuyName),
     drop (Z.to_nat nx + nu) xuyName).
Proof.
  intros Hnx. unfold system_names.
  rewrite slice_to_nonneg, slice_nonneg, slice_from_nonneg by lia.
  repeat f_equal; lia.
Qed.

(** C5.  For a linearization whose matrix ABCD has rows of one length and
    whose state count nx is a count of rows and of columns of ABCD
    (0 <= nx <= rows, nx <= columns), [readlin] computes
    nu = columns - nx and ny = rows - nx; hands to [ss] the top-left
    nx-by-nx block as A, the top-right nx-by-nu block as B, the bottom-left
    ny-by-nx block as C and the bottom-right ny-by-nu block as D, each
    replaced by the empty list of one empty row when a count it depends on
    is 0 (nx for A; nx or nu for B; nx or ny for C; nu or ny for D); and
    names the states by the first nx entries of xuyName, the inputs by the
    next nu and the outputs by the rest.  A block of h rows and w columns
    has that shape. *)
Theorem readlin_partitions {F Sys : Type}
    (ss : ndarray F → ndarray F → ndarray F → ndarray F → result Sys)
    (fname : string) (data : gmap string (value F)) (rest : list string)
    (ABCD : ndarray F) (nx_matrix : value F) (nx : Z) (xuyName : list string) :
  wf ABCD → 0 <= nx →
  (Z.to_nat nx ≤ nrows ABCD)%nat → (Z.to_nat nx ≤ ncols ABCD)%nat →
  data !! "ABCD" = Some (Float2 ABCD) →
  data !! "nx" = Some nx_matrix → state_count nx_matrix = Ok nx →
  data !! "xuyName" = Some (StrList xuyName) →
  let n := Z.to_nat nx in
  let nu := (ncols ABCD - n)%nat in
  let ny := (nrows ABCD - n)%nat in
  system_matrices ABCD nx
  = (Z.of_nat nu, Z.of_nat ny, system_matrices_spec ABCD n nu ny)
  ∧ readlin_loaded ss fname data ("AlinearSystem" :: rest)
    = (let '(A, B, C, D) := system_matrices_spec ABCD n nu ny in
       s ← ss A B C D;
       Ok (mkLinRes s (take n xuyName) (take nu (drop n xuyName))
             (drop (n + nu) xuyName)))
  ∧ (∀ r0 c0 h w : nat,
       nrows (block_spec r0 c0 h w ABCD) = h
       ∧ ncols (block_spec r0 c0 h w ABCD) = w).
Proof.
  intros Hwf Hnx Hr Hc HABCD Hnxm Hcount Hnames n nu ny.
  pose proof (system_matrices_by_blocks ABCD nx Hwf Hnx Hr Hc) as Hblocks.
  fold n nu ny in Hblocks.
  split; [exact Hblocks|]. split; [|intros; apply block_spec_shape].
  unfold readlin_loaded.
  change (("AlinearSystem" :: rest) !! 0%nat) with (Some "AlinearSystem").
  cbv beta iota. rewrite bind_ok.
  change (String.eqb "AlinearSystem" "Atrajectory") with false.
  change (String.eqb "AlinearSystem" "AlinearSystem") with true.
  cbv beta iota. unfold negb.
  unfold Py.getitem. rewrite HABCD, Hnxm, Hnames. rewrite !bind_ok, Hcount, bind_ok.
  rewrite Hblocks.
  destruct (system_matrices_spec ABCD n nu ny) as [[[A B] C] D].
  destruct (ss A B C D) as [s|e]; [|reflexivity].
  rewrite !bind_ok. rewrite system_names_by_counts by exact Hnx. reflexivity.
Qed.

Lemma readlin_partitions_witness :
  system_matrices Examples.ABCD 0
  = (4, 3, (empty_block, empty_block, empty_block, Examples.ABCD))
  ∧ system_matrices Examples.ABCD 2
  = (2, 1,
     (Ndarray 2 [[11; 12]; [21; 22]], Ndarray 2 [[13; 14]; [23; 24]],
      Ndarray 2 [[31; 32]], Ndarray 2 [[33; 34]]))
  ∧ readlin Examples.ss (Examples.reads Examples.linear_file ["AlinearSystem"; "1.0"])
      "PID.mat"
    = Ok (mkLinRes
            (Ndarray 2 [[11; 12]; [21; 22]], Ndarray 2 [[13; 14]; [23; 24]],
             Ndarray 2 [[31; 32]], Ndarray 2 [[33; 34]])
            ["x1"; "x2"] ["u1"; "u2"] ["y1"]).
Proof.
  assert (wf Examples.ABCD) as Hwf by (repeat constructor).
  pose proof (readlin_partitions Examples.ss "PID.mat" Examples.linear_file ["1.0"]
                Examples.ABCD (Int2 (Ndarray 1 [[2]])) 2 ["x1"; "x2"; "u1"; "u2"; "y1"]
                Hwf ltac:(lia) ltac:(vm_compute; lia) ltac:(vm_compute; lia)
                eq_refl eq_refl eq_refl eq_refl) as (Hm & Hread & _).
  pose proof (readlin_partitions Examples.ss "PID.mat"
                (<["nx" := Int2 (Ndarray 1 [[0]])]> Examples.linear_file) ["1.0"]
                Examples.ABCD (Int2 (Ndarray 1 [[0]])) 0 ["x1"; "x2"; "u1"; "u2"; "y1"]
                Hwf ltac:(lia) ltac:(vm_compute; lia) ltac:(vm_compute; lia)
                eq_refl eq_refl eq_refl eq_refl) as (Hm0 & _ & _).
  split; [exact Hm0|]. split; [exact Hm | exact Hread].
Defined.

(** ** The loops end before their fuel does *)

Section ScanFuel.
Context {F : Type}.
Variable atof : string → option F.
Variable atoi : string → option Z.

Lemma read_rows_shorter {B} (g : string → B) (n : nat) (lines rest : list string) xs :
  read_rows g n lines = Ok (xs, rest) → (length rest ≤ length lines)%nat.
Proof.
  revert lines xs. induction n as [|n IH]; intros lines xs; simpl.
  - intros [= <- <-]. lia.
  - destruct lines as [|l lines]; [discriminate|]. simpl. rewrite ?bind_ok.
    destruct (read_rows g n lines) as [[ys rest']|e] eqn:Hrows; [|discriminate].
    rewrite ?bind_ok. intros [= <- <-]. apply IH in Hrows. simpl. lia.
Qed.

Lemma next_nonblank_shorter (lines rest : list string) line :
  next_nonblank lines = Ok (line, rest) → (length rest < length lines)%nat.
Proof.
  induction lines as [|l lines IH]; simpl; [discriminate|].
  destruct (Str.rstrip Str.whitespace l).
  - intros Hnext. apply IH in Hnext. lia.
  - intros [= <- <-]. lia.
Qed.

Lemma parsers_shorter type_string parse (n : nat) (lines rest : list string) v :
  PARSERS atof atoi type_string = Some parse →
  parse n lines = Ok (v, rest) → (length rest ≤ length lines)%nat.
Proof.
  unfold PARSERS.
  destruct (String.eqb type_string "char");
    [|destruct (String.eqb type_string "float");
      [|destruct (String.eqb type_string "int"); [|discriminate]]];
    intros [= <-];
    match goal with
    | |- context [read_rows ?g n lines] =>
        destruct (read_rows g n lines) as [[xs rest']|e] eqn:Hrows;
        [|discriminate]
    end;
    rewrite ?bind_ok; intros [= _ <-]; exact (read_rows_shorter _ _ _ _ _ Hrows).
Qed.

Lemma scan_fuel (fuel1 fuel2 : nat) variable_names (lines : list string)
    (data : gmap string (value F)) :
  (length lines < fuel1)%nat → (length lines < fuel2)%nat →
  scan atof atoi fuel1 variable_names lines data
  = scan atof atoi fuel2 variable_names lines data.
Proof.
  revert fuel2 lines data.
  induction fuel1 as [|fuel1 IH]; intros fuel2 lines data H1 H2; [lia|].
  destruct fuel2 as [|fuel2]; [lia|]. simpl.
  destruct (next_nonblank lines) as [[line rest]|e] eqn:Hnext; [|reflexivity].
  apply next_nonblank_shorter in Hnext.
  destruct (SPLIT_DEFINITION line) as [[[[type_string name] nrows] ncols]|];
    [|reflexivity].
  destruct (Str.int_of_digits nrows) as [n|e]; [|reflexivity].
  rewrite ?bind_ok.
  destruct (selected variable_names name).
  - destruct (PARSERS atof atoi type_string) as [parse|] eqn:Hparser; [|reflexivity].
    destruct (parse n rest) as [[v rest']|e] eqn:Hparse; [|reflexivity].
    pose proof (parsers_shorter _ _ _ _ _ _ Hparser Hparse).
    apply IH; lia.
  - destruct (read_rows (λ _, tt) n rest) as [[xs rest']|e] eqn:Hrows; [|reflexivity].
    rewrite ?bind_ok. apply read_rows_shorter in Hrows. apply IH; lia.
Qed.

End ScanFuel.

Lemma data_key_inj (i j : nat) :
  "data_" +:+ Str.of_nat i = "data_" +:+ Str.of_nat j → i = j.
Proof.
  intros Heq. injection Heq as Heq.
  change (Str.of_nat i = Str.of_nat j) in Heq. unfold Str.of_nat in Heq.
  pose proof (NilEmpty.usu (Nat.to_uint i)) as Hi. rewrite Heq in Hi.
  rewrite NilEmpty.usu in Hi.
  pose proof (DecimalNat.Unsigned.of_to i) as Hofi.
  pose proof (DecimalNat.Unsigned.of_to j) as Hofj.
  congruence.
Qed.

Lemma extract_fuel {F} `{!Numeric F} (second_value : F) (fuel1 fuel2 i : nat)
    (data remaining : gmap string (value F)) (trajectories : store F) :
  (∀ j, (i ≤ j)%nat →
        data !! ("data_" +:+ Str.of_nat j) = remaining !! ("data_" +:+ Str.of_nat j)) →
  (size remaining < fuel1)%nat → (size remaining < fuel2)%nat →
  extract_trajectories second_value fuel1 i data trajectories
  = extract_trajectories second_value fuel2 i data trajectories.
Proof.
  revert fuel2 i remaining trajectories.
  induction fuel1 as [|fuel1 IH]; intros fuel2 i remaining trajectories Hsame H1 H2;
    [lia|].
  destruct fuel2 as [|fuel2]; [lia|]. simpl.
  destruct (data !! ("data_" +:+ Str.of_nat i)) as [v|] eqn:Hv; [|reflexivity].
  destruct (as_float2 v) as [m|e]; [|reflexivity]. rewrite ?bind_ok.
  match goal with |- context [if ?b then ?x else ?y] =>
    destruct (if b then x else y) as [m'|e]; [|reflexivity] end.
  rewrite ?bind_ok.
  rewrite Hsame in Hv by lia.
  assert (size remaining ≠ 0%nat) as Hsize
    by (apply (map_size_ne_0_lookup_2 _ ("data_" +:+ Str.of_nat i)); eauto).
  apply (IH _ _ (delete ("data_" +:+ Str.of_nat i) remaining)).
  - intros j Hj. rewrite lookup_delete_ne.
    + apply Hsame. lia.
    + intros Heq. apply data_key_inj in Heq. lia.
  - rewrite map_size_delete, Hv. simpl. lia.
  - rewrite map_size_delete, Hv. simpl. lia.
Qed.

(** * Further properties *)

(** ** Transposition *)

Section TransposeProperties.
Context {A : Type}.
Implicit Types (m : ndarray A).

Lemma omap_ext_in {B C} (f g : B → option C) (l : list B) :
  (∀ x, x ∈ l → f x = g x) → omap f l = omap g l.
Proof.
  induction l as [|x l IH]; intros Hfg; [reflexivity|]. csimpl.
  rewrite (Hfg x) by left. rewrite IH; [reflexivity|].
  intros y Hy. apply Hfg. by right.
Qed.

Lemma omap_fmap_list {B C D} (f : C → option D) (g : B → C) (l : list B) :
  omap f (g <$> l) = omap (λ x, f (g x)) l.
Proof.
  induction l as [|x l IH]; [reflexivity|]. csimpl. rewrite IH. reflexivity.
Qed.

Lemma column_lookup m (i j : nat) :
  wf m → (j < ncols m)%nat → column j m !! i = rows m !! i ≫= (.!! j).
Proof.
  unfold wf, column. intros Hwf Hj. revert i.
  induction Hwf as [|r rs Hr Hrs IH]; intros i; [reflexivity|]. csimpl.
  destruct (lookup_lt_is_Some_2 r j) as [x Hx]; [lia|]. rewrite Hx. csimpl.
  destruct i as [|i]; [simpl; congruence|]. apply IH.
Qed.

Lemma column_length m (j : nat) :
  wf m → (j < ncols m)%nat → length (column j m) = nrows m.
Proof.
  unfold wf, column, nrows. intros Hwf Hj.
  induction Hwf as [|r rs Hr Hrs IH]; [reflexivity|]. csimpl.
  destruct (lookup_lt_is_Some_2 r j) as [x Hx]; [lia|]. rewrite Hx. csimpl.
  rewrite IH. reflexivity.
Qed.

Lemma transpose_wf m : wf m → wf (transpose m).
Proof.
  intros Hwf. unfold wf, transpose. simpl.
  apply Forall_fmap, Forall_forall. intros j Hj. simpl.
  apply elem_of_seq in Hj. apply column_length; [exact Hwf|lia].
Qed.

Lemma transpose_shape m :
  nrows (transpose m) = ncols m ∧ ncols (transpose m) = nrows m.
Proof.
  split; [|reflexivity]. unfold nrows, transpose. simpl.
  rewrite length_fmap. apply length_seq.
Qed.

Lemma column_transpose m (i : nat) :
  wf m →
  column i (transpose m) = omap (λ j, rows m !! i ≫= (.!! j)) (seq 0 (ncols m)).
Proof.
  intros Hwf. unfold column at 1. unfold transpose. simpl.
  rewrite omap_fmap_list. apply omap_ext_in. intros j Hj.
  apply elem_of_seq in Hj. apply column_lookup; [exact Hwf|lia].
Qed.

Lemma transpose_involutive m : wf m → transpose (transpose m) = m.
Proof.
  intros Hwf. destruct (transpose_shape m) as [Hr Hc].
  unfold transpose at 1. rewrite Hr, Hc.
  transitivity (block_spec 0 0 (nrows m) (ncols m) m).
  - unfold block_spec. f_equal. apply list_fmap_ext. intros _ i _.
    apply column_transpose, Hwf.
  - rewrite block_spec_rows by (assumption || lia).
    destruct m as [c rs]. unfold wf, nrows in *. simpl in *. f_equal.
    rewrite take_ge by (rewrite length_drop; lia).
    transitivity (id <$> rs); [|apply list_fmap_id].
    apply Forall_fmap_ext. eapply Forall_impl; [exact Hwf|].
    intros r Hlen. simpl in *. apply take_ge. lia.
Qed.

End TransposeProperties.

(** ** The format detector, on whole dictionaries *)

Section ReadProperties.
Context {F : Type}.
Implicit Types (data : gmap string (value F)) (v : value F).

(** The loop over [data.items()] succeeds when every turn does, and then
    changes every value by its turn. *)
Lemma update_items_ok (f : string → value F → result (value F))
    (g : string → value F → value F) data :
  (∀ k v, data !! k = Some v → f k v = Ok (g k v)) →
  update_items f data = Ok (map_imap (λ k v, Some (g k v)) data).
Proof.
  intros Hf. unfold update_items.
  assert (∀ d0 : gmap string (value F),
            map_fold (λ name v acc, d ← acc; v' ← f name v; Ok (<[name := v']> d))
                     (Ok d0) data
            = Ok (map_imap (λ k v, Some (g k v)) data ∪ d0)) as Hfold.
  { intros d0. revert Hf.
    apply (map_fold_weak_ind
             (λ r m, (∀ k v, m !! k = Some v → f k v = Ok (g k v)) →
                     r = Ok (map_imap (λ k v, Some (g k v)) m ∪ d0))).
    - intros _. rewrite map_imap_empty, (left_id_L ∅ (∪)). reflexivity.
    - intros i x m r Hi IH Hins. rewrite IH.
      + rewrite bind_ok, (Hins i x) by apply lookup_insert_eq. rewrite bind_ok.
        rewrite (map_imap_insert_Some _ _ _ _ (g i x)) by reflexivity.
        rewrite insert_union_l. reflexivity.
      + intros k v Hk. apply Hins. rewrite lookup_insert_ne; [exact Hk|].
        intros ->. congruence. }
  rewrite Hfold. f_equal. apply map_eq. intros k.
  rewrite lookup_union, map_lookup_imap.
  destruct (data !! k); reflexivity.
Qed.

Lemma undo_binary_normal v : array2 v → undo_binary false v = Ok (as_read v).
Proof. destruct v; simpl; intros Hv; (reflexivity || contradiction). Qed.

Lemma undo_binary_transposed v :
  array2 v → undo_binary true (stored_transposed v) = Ok (as_read v).
Proof.
  destruct v; simpl; intros Hv; try contradiction;
    rewrite transpose_involutive by exact Hv; reflexivity.
Qed.

Lemma value_T_array v :
  (∀ l, v ≠ StrList l) → value_T v = Ok (stored_transposed v).
Proof. destruct v; simpl; intros Hv; (reflexivity || by destruct (Hv l)). Qed.

End ReadProperties.

(** X1.  A binary file read in either layout gives the same matrices: if
    the dictionary of a file of the normal layout holds 2-D arrays, and the
    file of the transposed layout holds the transposes of the same arrays,
    with Aclass lines that say so at index 3, [read] returns in both cases
    the arrays as the normal file has them, with every character matrix
    turned into the list of its lines, and without the key Aclass. *)
Theorem read_binary_layouts {F} (fname : string) (data : gmap string (value F))
    (Aclass_normal Aclass_trans : ndarray ascii) :
  data !! "Aclass" = None →
  (∀ k v, data !! k = Some v → array2 v) →
  is_transposed (get_strings Aclass_normal) = Ok false →
  is_transposed (get_strings Aclass_trans) = Ok true →
  read_loaded fname true (<["Aclass" := Char2 Aclass_normal]> data)
  = Ok (as_read <$> data, get_strings Aclass_normal)
  ∧ read_loaded fname true
      (<["Aclass" := Char2 Aclass_trans]> (stored_transposed <$> data))
    = Ok (as_read <$> data, get_strings Aclass_trans).
Proof.
  intros Hno Harr Hnormal Htrans. split.
  - unfold read_loaded. rewrite lookup_insert_eq, delete_insert_eq, delete_id by exact Hno.
    rewrite bind_ok, Hnormal, bind_ok.
    rewrite (update_items_ok _ (λ _, as_read)).
    + rewrite bind_ok. do 2 f_equal. apply map_eq. intros k.
      rewrite map_lookup_imap, lookup_fmap. destruct (data !! k); reflexivity.
    + intros k v Hk. apply undo_binary_normal. eapply Harr, Hk.
  - unfold read_loaded. rewrite lookup_insert_eq, delete_insert_eq.
    rewrite delete_id by (rewrite lookup_fmap, Hno; reflexivity).
    rewrite bind_ok, Htrans, bind_ok.
    rewrite (update_items_ok _
               (λ _ v, match undo_binary true v with Ok x => x | Raise _ => v end)).
    + rewrite bind_ok. do 2 f_equal. apply map_eq. intros k.
      rewrite map_lookup_imap, !lookup_fmap.
      destruct (data !! k) as [v|] eqn:Hk; [|reflexivity]. simpl.
      rewrite undo_binary_transposed by (eapply Harr, Hk). reflexivity.
    + intros k v' Hk. rewrite lookup_fmap in Hk.
      destruct (data !! k) as [v|] eqn:Hv; [|discriminate].
      injection Hk as <-.
      rewrite undo_binary_transposed by (eapply Harr, Hv). reflexivity.
Qed.

Lemma read_binary_layouts_witness :
  read_loaded "dsres.mat" true
    (<["Aclass" := Char2 (Examples.Aclass4 "           " "binNormal  ")]>
       MoreExamples.matrices)
  = Ok (<["data_1" := Float2 Examples.data_2]>
          {["name" := StrList ["Time"; "x"; "y"]]},
        ["Atrajectory"; "1.1"; EmptyString; "binNormal"])
  ∧ read_loaded "dsres.mat" true
      (<["Aclass" := Char2 (Examples.Aclass4 "           " "binTrans   ")]>
         (stored_transposed <$> MoreExamples.matrices))
    = Ok (<["data_1" := Float2 Examples.data_2]>
            {["name" := StrList ["Time"; "x"; "y"]]},
          ["Atrajectory"; "1.1"; EmptyString; "binTrans"]).
Proof.
  assert (∀ k v, MoreExamples.matrices !! k = Some v → array2 v) as Harr.
  { intros k v Hk. unfold MoreExamples.matrices in Hk.
    apply lookup_insert_Some in Hk as [[_ <-]|[_ Hk]].
    - repeat constructor.
    - apply lookup_singleton_Some in Hk as [_ <-]. repeat constructor. }
  exact (read_binary_layouts "dsres.mat" MoreExamples.matrices
           (Examples.Aclass4 "           " "binNormal  ")
           (Examples.Aclass4 "           " "binTrans   ")
           eq_refl Harr eq_refl eq_refl).
Defined.

(** X2.  In a text file [read] transposes the matrices whose name starts
    with "data_" and nothing else: when no such name holds a list of
    strings, it returns the dictionary without Aclass in which exactly
    those values are transposed, and the lines of Aclass as they are (no
    layout line is looked at). *)
Theorem read_text_layout {F} (fname : string) (data : gmap string (value F))
    (Aclass : list string) :
  data !! "Aclass" = Some (StrList Aclass) →
  (∀ k v l, data !! k = Some v → Str.startswith "data_" k = true → v ≠ StrList l) →
  read_loaded fname false data
  = Ok (map_imap (λ k v, Some (if Str.startswith "data_" k
                               then stored_transposed v else v))
          (delete "Aclass" data),
        Aclass).
Proof.
  intros HA Hdata. unfold read_loaded. rewrite HA.
  rewrite (update_items_ok _ (λ k v, if Str.startswith "data_" k
                                     then stored_transposed v else v)).
  - reflexivity.
  - intros k v Hk. unfold undo_text.
    destruct (Str.startswith "data_" k) eqn:Hstart; [|reflexivity].
    apply value_T_array. intros l.
    apply lookup_delete_Some in Hk as [_ Hk]. eapply Hdata; eassumption.
Qed.

Lemma read_text_layout_witness :
  read_loaded "dslin.txt" false MoreExamples.text_matrices
  = Ok (<["data_1" := Float2 Examples.data_2]>
          {["ABCD" := Float2 (transpose Examples.ABCD)]},
        ["AlinearSystem"; "1.0"]).
Proof.
  assert (∀ k v l, MoreExamples.text_matrices !! k = Some v →
                   Str.startswith "data_" k = true → v ≠ StrList l) as Hdata.
  { intros k v l Hk Hstart. unfold MoreExamples.text_matrices in Hk.
    apply lookup_insert_Some in Hk as [[_ <-]|[_ Hk]]; [discriminate|].
    apply lookup_insert_Some in Hk as [[_ <-]|[_ Hk]]; [discriminate|].
    apply lookup_singleton_Some in Hk as [<- _]. discriminate. }
  rewrite (read_text_layout "dslin.txt" MoreExamples.text_matrices
             ["AlinearSystem"; "1.0"] eq_refl Hdata).
  vm_compute. reflexivity.
Defined.

(** ** Blocks of a text file *)

Lemma np_array_wf {A} (rs : list (list A)) (m : ndarray A) :
  np_array rs = inl m → wf m ∧ rows m = rs.
Proof.
  unfold np_array. destruct rs as [|r rs']; [discriminate|].
  destruct (forallb _ _) eqn:Hall; [|discriminate].
  intros [= <-]. split; [|reflexivity]. unfold wf. simpl.
  apply Forall_forall. intros r' Hr'.
  rewrite forallb_forall in Hall. apply list_elem_of_In, Hall in Hr'.
  apply Nat.eqb_eq in Hr'. exact Hr'.
Qed.

(** X3.  The parser of [float] returns the transpose of the rows it reads
    and [read] transposes the matrices named "data_..." once more: a block
    [float data_N] comes out of [read] with the rows of the file as its
    rows (when they have one length; otherwise as the 1-D array of the
    rows). *)
Theorem float_data_block_as_written {F} (atof : string → option F)
    (atoi : string → option Z) parse (n : nat) (lines rest : list string)
    (v : value F) (name : string) :
  PARSERS atof atoi "float" = Some parse →
  parse n lines = Ok (v, rest) →
  Str.startswith "data_" name = true →
  ∃ rs, read_rows (λ l, fromstring atof (Str.before "#" l)) n lines = Ok (rs, rest)
        ∧ undo_text name v
          = Ok (match np_array rs with
                | inl m => Float2 {| ncols := ncols m; rows := rs |}
                | inr items => Float1 items
                end).
Proof.
  intros Hparser Hparse Hname. unfold PARSERS in Hparser. simpl in Hparser.
  injection Hparser as <-.
  destruct (read_rows (λ l, fromstring atof (Str.before "#" l)) n lines)
    as [[rs rest']|e] eqn:Hrows; [|discriminate].
  rewrite bind_ok in Hparse. injection Hparse as <- <-.
  exists rs. split; [reflexivity|]. unfold undo_text. rewrite Hname.
  destruct (np_array rs) as [m|items] eqn:Harray; [|reflexivity].
  apply np_array_wf in Harray as [Hwf Hrows'].
  simpl. rewrite transpose_involutive by exact Hwf.
  destruct m as [c rs0]. simpl in *. subst rs0. reflexivity.
Qed.

Lemma float_data_block_as_written_witness :
  ∃ parse v,
    PARSERS Examples.atoz Examples.atoz "float" = Some parse
    ∧ parse 3%nat MoreExamples.block_lines = Ok (v, [])
    ∧ v = Float2 (transpose Examples.data_2)
    ∧ undo_text "data_1" v = Ok (Float2 Examples.data_2).
Proof.
  eexists _, _. split; [reflexivity|]. split; [reflexivity|]. split; [reflexivity|].
  destruct (float_data_block_as_written Examples.atoz Examples.atoz _ 3
              MoreExamples.block_lines [] _ "data_1" eq_refl eq_refl eq_refl)
    as (rs & Hrows & Hundo).
  injection Hrows as <-. exact Hundo.
Defined.

(** ** Character matrices *)

Lemma rstrip_blanks (cs : string) (n : nat) :
  Str.mem " " cs = true → Str.rstrip cs (blanks n) = EmptyString.
Proof.
  intros Hsp. induction n as [|n IH]; [reflexivity|]. simpl.
  rewrite IH, Hsp. reflexivity.
Qed.

Lemma rstrip_padded (cs s : string) (n : nat) :
  Str.mem " " cs = true → ends_clean cs s = true →
  Str.rstrip cs (s +:+ blanks n) = s.
Proof.
  intros Hsp. induction s as [|c s IH]; intros Hclean.
  - apply rstrip_blanks, Hsp.
  - destruct s as [|c' s'].
    + change (Str.rstrip cs (String c EmptyString +:+ blanks n))
        with (match Str.rstrip cs (blanks n) with
              | EmptyString =>
                  if Str.mem c cs then EmptyString else String c EmptyString
              | r => String c r
              end).
      rewrite (rstrip_blanks cs n Hsp). simpl in Hclean.
      destruct (Str.mem c cs); [discriminate|reflexivity].
    + change (ends_clean cs (String c (String c' s')))
        with (ends_clean cs (String c' s')) in Hclean.
      change (Str.rstrip cs (String c (String c' s') +:+ blanks n))
        with (match Str.rstrip cs (String c' s' +:+ blanks n) with
              | EmptyString =>
                  if Str.mem c cs then EmptyString else String c EmptyString
              | r => String c r
              end).
      rewrite IH by exact Hclean. reflexivity.
Qed.

(** X4.  [get_strings] undoes the padding of a character matrix: for
    lines that do not end in a blank or a NUL character, the matrix whose
    rows are the lines filled up with blanks gives back the lines. *)
Theorem get_strings_of_padded (width : nat) (ls : list string) :
  Forall (λ s, ends_clean (String " " (String "000" EmptyString)) s = true) ls →
  get_strings (Ndarray width ((λ s, list_ascii_of_string (padded width s)) <$> ls))
  = ls.
Proof.
  intros Hclean. unfold get_strings. simpl. rewrite <- list_fmap_compose.
  transitivity (id <$> ls); [|apply list_fmap_id].
  apply Forall_fmap_ext. eapply Forall_impl; [exact Hclean|].
  intros s Hs. simpl in *. rewrite string_of_list_ascii_of_string.
  apply rstrip_padded; [reflexivity|exact Hs].
Qed.

Lemma get_strings_of_padded_witness :
  get_strings (Examples.Aclass4 "           " "binTrans   ")
  = ["Atrajectory"; "1.1"; EmptyString; "binTrans"].
Proof.
  assert (Forall (λ s, ends_clean (String " " (String "000" EmptyString)) s = true)
            ["Atrajectory"; "1.1"; EmptyString; "binTrans"]) as Hclean
    by (repeat constructor).
  exact (get_strings_of_padded 11 _ Hclean).
Defined.

(** ** Descriptions without unit *)

Lemma occurs_rstrip (c : ascii) (cs s : string) :
  occurs c s = false → occurs c (Str.rstrip cs s) = false.
Proof.
  induction s as [|x s IH]; [reflexivity|]. simpl.
  intros Hno. apply orb_false_iff in Hno as [Hx Hs].
  destruct (Str.rstrip cs s) as [|y r] eqn:Hr.
  - destruct (Str.mem x cs); simpl; [reflexivity|]. rewrite Hx. reflexivity.
  - simpl. rewrite Hx. simpl. apply (IH Hs).
Qed.

(** X5.  A description without "[" has no unit: the empty unit string
    goes to natu, the display unit is empty, and the description is the
    text without the "]" and the whitespace at its right end. *)
Theorem parse_description_plain {F Dim ustring : Type}
    (natu_units : string → result (Unit Dim F))
    (decode_utf8 : string → result ustring) (description : string) :
  occurs "[" description = false →
  parse_description natu_units decode_utf8 description
  = (unit ← natu_units EmptyString;
     d ← decode_utf8 (Str.rstrip Str.whitespace (Str.rstrip "]" description));
     Ok (unit, EmptyString, d)).
Proof.
  intros Hno. unfold parse_description, description_parts.
  rewrite rsplit1_absent by (apply occurs_rstrip, Hno). reflexivity.
Qed.

Lemma parse_description_plain_witness :
  parse_description (λ u, if String.eqb u EmptyString
                          then Ok (ScalarUnit 0%nat 1) else Examples.units u)
    Examples.decode "Number of turns  "
  = Ok (ScalarUnit 0%nat 1, EmptyString, "Number of turns").
Proof.
  exact (parse_description_plain
           (λ u, if String.eqb u EmptyString
                 then Ok (ScalarUnit 0%nat 1) else Examples.units u)
           Examples.decode "Number of turns  " eq_refl).
Defined.

(** ** The text scanner, block by block *)

Section ScanProperties.
Context {F : Type}.
Variable atof : string → option F.
Variable atoi : string → option Z.

Lemma read_rows_short {B} (g : string → B) (n : nat) (lines : list string) :
  (length lines < n)%nat → read_rows g n lines = Raise StopIteration.
Proof.
  revert lines. induction n as [|n IH]; intros lines Hlen; [lia|].
  destruct lines as [|l lines]; [reflexivity|]. simpl in *.
  rewrite ?bind_ok. rewrite IH by lia. reflexivity.
Qed.

Lemma parsers_short type_string parse (n : nat) (lines : list string) :
  PARSERS atof atoi type_string = Some parse →
  (length lines < n)%nat → parse n lines = Raise StopIteration.
Proof.
  unfold PARSERS. intros Hparser Hlen.
  destruct (String.eqb type_string "char");
    [|destruct (String.eqb type_string "float");
      [|destruct (String.eqb type_string "int"); [|discriminate]]];
    injection Hparser as <-; rewrite read_rows_short by exact Hlen; reflexivity.
Qed.

Lemma scan_keys (fuel : nat) variable_names (lines : list string)
    (data result : gmap string (value F)) :
  (∀ k, is_Some (data !! k) → selected variable_names k = true) →
  scan atof atoi fuel variable_names lines data = Ok result →
  ∀ k, is_Some (result !! k) → selected variable_names k = true.
Proof.
  revert lines data. induction fuel as [|fuel IH]; intros lines data Hdata; simpl.
  - intros [= <-]. exact Hdata.
  - destruct (next_nonblank lines) as [[line rest]|e].
    + destruct (SPLIT_DEFINITION line) as [[[[type_string name] nrows] ncols]|];
        [|discriminate].
      destruct (Str.int_of_digits nrows) as [n|e]; [|discriminate].
      rewrite ?bind_ok.
      destruct (selected variable_names name) eqn:Hsel.
      * destruct (PARSERS atof atoi type_string) as [parse|]; [|discriminate].
        destruct (parse n rest) as [[v rest']|e]; [|destruct e; discriminate].
        apply IH. intros k Hk. apply lookup_insert_is_Some in Hk as [<-|[_ Hk]].
        -- exact Hsel.
        -- apply Hdata, Hk.
      * destruct (read_rows (λ _, tt) n rest) as [[xs rest']|e]; [|discriminate].
        rewrite ?bind_ok. apply IH, Hdata.
    + destruct e; try discriminate. intros [= <-]. exact Hdata.
Qed.

End ScanProperties.

(** X6.  [loadtxt] with a list of variable names returns values for names
    of that list only: the blocks of the other names are passed over. *)
Theorem loadtxt_reads_selected_only {F} (atof : string → option F)
    (atoi : string → option Z) (lines : list string)
    (variable_names : list string) (skip_header : nat)
    (data : gmap string (value F)) (name : string) :
  loadtxt atof atoi lines (Some variable_names) skip_header = Ok data →
  is_Some (data !! name) → name ∈ variable_names.
Proof.
  unfold loadtxt. intros Hload Hname.
  destruct (read_rows (λ _, tt) skip_header lines) as [[xs rest]|e]; [|discriminate].
  rewrite bind_ok in Hload.
  pose proof (scan_keys atof atoi (S (length rest)) (Some variable_names)
                rest ∅ data) as Hkeys.
  specialize (Hkeys ltac:(intros k [v Hk]; by rewrite lookup_empty in Hk) Hload name Hname).
  simpl in Hkeys. apply existsb_exists in Hkeys as (x & Hin & Heq).
  apply String.eqb_eq in Heq. subst x. apply list_elem_of_In, Hin.
Qed.

Lemma loadtxt_reads_selected_only_witness :
  (∃ data, loadtxt Examples.atoz Examples.atoz
             (Examples.text_file ++ ["int nx (1,1)" +:+ Examples.nl; "2" +:+ Examples.nl])
             (Some ["Aclass"; "nx"]) 1 = Ok data
           ∧ data !! "nx" = Some (Int2 (Ndarray 1 [[2]])) ∧ data !! "x" = None)
  ∧ "nx" ∈ ["Aclass"; "nx"].
Proof.
  split.
  - eexists. split; [vm_compute; reflexivity|]. split; reflexivity.
  - apply (loadtxt_reads_selected_only Examples.atoz Examples.atoz
             (Examples.text_file ++ ["int nx (1,1)" +:+ Examples.nl; "2" +:+ Examples.nl])
             ["Aclass"; "nx"] 1 {["nx" := Int2 (Ndarray 1 [[2]])]} "nx").
    + vm_compute. reflexivity.
    + eexists. reflexivity.
Defined.

(** X7.  When the file ends inside a block (fewer lines are left than the
    block declares rows), a block that is read raises ValueError and a
    block that is passed over raises StopIteration; the type word of a
    block is looked up only when the block is read, and an unknown one is
    then a KeyError that quotes it. *)
Theorem scan_incomplete_block {F} (atof : string → option F)
    (atoi : string → option Z) (fuel : nat) variable_names
    (line : string) (rest : list string) (data : gmap string (value F))
    (type_string name nrows ncols : string) (n : nat) :
  next_nonblank (line :: rest) = Ok (line, rest) →
  SPLIT_DEFINITION line = Some (type_string, name, nrows, ncols) →
  Str.int_of_digits nrows = Ok n →
  (length rest < n)%nat →
  scan atof atoi (S fuel) variable_names (line :: rest) data
  = if selected variable_names name then
      match PARSERS atof atoi type_string with
      | Some _ => Raise ValueError
      | None => Raise (KeyError ("Unknown variable type: " +:+ type_string))
      end
    else Raise StopIteration.
Proof.
  intros Hnext Hsplit Hn Hlen.
  change (scan atof atoi (S fuel) variable_names (line :: rest) data)
    with (match next_nonblank (line :: rest) with
          | Raise StopIteration => Ok data
          | Raise e => Raise e
          | Ok (line, rest) =>
              match SPLIT_DEFINITION line with
              | None => Raise AttributeError
              | Some (type_string, name, nrows, ncols) =>
                  n ← Str.int_of_digits nrows;
                  if selected variable_names name then
                    match PARSERS atof atoi type_string with
                    | None => Raise (KeyError ("Unknown variable type: " +:+ type_string))
                    | Some parse =>
                        match parse n rest with
                        | Raise StopIteration => Raise ValueError
                        | Raise e => Raise e
                        | Ok (v, rest') =>
                            scan atof atoi fuel variable_names rest' (<[name := v]> data)
                        end
                    end
                  else
                    '(_, rest') ← read_rows (λ _, tt) n rest;
                    scan atof atoi fuel variable_names rest' data
              end
          end).
  rewrite Hnext, Hsplit, Hn, bind_ok.
  destruct (selected variable_names name).
  - destruct (PARSERS atof atoi type_string) as [parse|] eqn:Hparser; [|reflexivity].
    rewrite (parsers_short atof atoi _ _ _ _ Hparser Hlen). reflexivity.
  - rewrite read_rows_short by exact Hlen. reflexivity.
Qed.

Lemma scan_incomplete_block_witness :
  scan Examples.atoz Examples.atoz 5 None
    ["float x (3,1)" +:+ Examples.nl; "15" +:+ Examples.nl; "25" +:+ Examples.nl] ∅
  = Raise ValueError
  ∧ scan Examples.atoz Examples.atoz 5 (Some ["y"])
      ["float x (3,1)" +:+ Examples.nl; "15" +:+ Examples.nl; "25" +:+ Examples.nl] ∅
    = Raise StopIteration
  ∧ scan Examples.atoz Examples.atoz 5 None
      ["double x (3,1)" +:+ Examples.nl; "15" +:+ Examples.nl; "25" +:+ Examples.nl] ∅
    = Raise (KeyError "Unknown variable type: double").
Proof.
  split; [|split].
  - exact (scan_incomplete_block Examples.atoz Examples.atoz 4 None
             ("float x (3,1)" +:+ Examples.nl)
             ["15" +:+ Examples.nl; "25" +:+ Examples.nl] ∅
             "float" "x" "3" "1" 3 eq_refl eq_refl eq_refl ltac:(simpl; lia)).
  - exact (scan_incomplete_block Examples.atoz Examples.atoz 4 (Some ["y"])
             ("float x (3,1)" +:+ Examples.nl)
             ["15" +:+ Examples.nl; "25" +:+ Examples.nl] ∅
             "float" "x" "3" "1" 3 eq_refl eq_refl eq_refl ltac:(simpl; lia)).
  - exact (scan_incomplete_block Examples.atoz Examples.atoz 4 None
             ("double x (3,1)" +:+ Examples.nl)
             ["15" +:+ Examples.nl; "25" +:+ Examples.nl] ∅
             "double" "x" "3" "1" 3 eq_refl eq_refl eq_refl ltac:(simpl; lia)).
Defined.

(** ** The variables of version 1.1 *)

Section VariableProperties.
Context {F : Type} `{!Numeric F} {Dim ustring : Type}.
Variable natu_units : string → result (Unit Dim F).
Variable decode_utf8 : string → result ustring.
Implicit Types (st : store F) (v : SimVariable F Dim ustring).

Lemma scale_column_wf (j : nat) (x : F) (m : ndarray F) :
  wf m → wf (scale_column j x m).
Proof.
  unfold wf, scale_column. simpl. intros Hwf. apply Forall_fmap.
  eapply Forall_impl; [exact Hwf|]. intros r Hr. simpl in *.
  rewrite length_alter. exact Hr.
Qed.

Lemma scale_view_wf (k j : nat) (x : F) st :
  Forall wf st → Forall wf (scale_view k j x st).
Proof.
  intros Hwf. unfold scale_view. apply Forall_alter; [exact Hwf|].
  intros m _. apply scale_column_wf.
Qed.

Lemma column_scale_length (j j' : nat) (x : F) (m : ndarray F) :
  length (column j' (scale_column j x m)) = length (column j' m).
Proof.
  destruct (decide (j = j')) as [<-|Hne].
  - rewrite column_scale_same, length_fmap. reflexivity.
  - rewrite column_scale_other by exact Hne. reflexivity.
Qed.

Lemma deref_scale_length (k j : nat) (x : F) st (a : arr F) :
  length (deref (scale_view k j x st) a) = length (deref st a).
Proof.
  destruct a as [k' j'|l]; [|reflexivity]. unfold deref, scale_view.
  destruct (decide (k = k')) as [<-|Hne].
  - rewrite list_lookup_alter_eq. destruct (st !! k); simpl;
      [apply column_scale_length | reflexivity].
  - rewrite list_lookup_alter_ne by exact Hne. reflexivity.
Qed.

Lemma locate_inv st (data_set sign_col : Z) (n : bool) (k : nat) (sv t : arr F) :
  locate st data_set sign_col = Ok (n, k, sv, t) →
  ∃ traj j, st !! k = Some traj ∧ (j < ncols traj)%nat
            ∧ sv = View k j ∧ t = View k 0%nat ∧ n = (sign_col <? 0).
Proof.
  unfold locate.
  destruct (Py.index (length st) (data_set - 1)) as [k0|e]; [|discriminate].
  rewrite bind_ok. destruct (st !! k0) as [traj|] eqn:Htraj; cbv beta iota;
    [|discriminate].
  destruct (col_index traj ((if sign_col <? 0 then - sign_col else sign_col) - 1))
    as [j|e] eqn:Hj; [|discriminate].
  rewrite bind_ok, col_index_zero.
  destruct (0 <? Z.of_nat (ncols traj)); [|discriminate].
  rewrite bind_ok. intros [= <- <- <- <-].
  exists traj, j. apply index_ok_lt in Hj. repeat split; assumption.
Qed.

Lemma apply_unit_inv st (unit : Unit Dim F) (k j : nat) (n : bool)
    st' (sv' : arr F) (n' : bool) :
  apply_unit st unit (View k j) n = Ok (st', sv', n') →
  (st' = st ∨ ∃ x, st' = scale_view k j x st)
  ∧ length (deref st' sv') = length (deref st (View k j)).
Proof.
  unfold apply_unit. destruct unit as [d x|d f].
  - destruct (fne_one x); cbv beta iota.
    + intros [= <- <- <-]. split; [right; by exists x|]. apply deref_scale_length.
    + intros [= <- <- <-]. split; [by left|reflexivity].
  - destruct (vectorize f st _) as [sv0|e] eqn:Hvec; [|discriminate].
    rewrite bind_ok. intros [= <- <- <-]. split; [by left|].
    apply vectorize_ok in Hvec. subst sv0. simpl. rewrite length_fmap.
    destruct n; [|reflexivity]. simpl. apply length_fmap.
Qed.

Lemma make_variable_inv st (description : string) (row : list Z) st' v (t : arr F) :
  make_variable natu_units decode_utf8 st description row = Ok (st', v, t) →
  ∃ traj k j,
    st !! k = Some traj ∧ (j < ncols traj)%nat ∧ t = View k 0%nat
    ∧ times (samples v) = t
    ∧ (st' = st ∨ ∃ x, st' = scale_view k j x st)
    ∧ length (deref st' (signed_values (samples v))) = length (deref st (View k j)).
Proof.
  unfold make_variable.
  destruct row as [|data_set [|sign_col [|? ?]]]; try discriminate.
  destruct (parse_description natu_units decode_utf8 description)
    as [[[unit display] d]|e]; [|discriminate].
  rewrite bind_ok.
  destruct (locate st data_set sign_col) as [[[[n k] sv] t0]|e] eqn:Hlocate;
    [|discriminate].
  apply locate_inv in Hlocate as (traj & j & Htraj & Hj & -> & -> & _).
  rewrite bind_ok.
  destruct (apply_unit st unit (View k j) n) as [[[st1 sv1] n1]|e] eqn:Happly;
    [|discriminate].
  rewrite bind_ok. intros [= <- <- <-].
  apply apply_unit_inv in Happly as [Hst Hlen].
  exists traj, k, j. repeat split; assumption.
Qed.

Lemma balanced_scale_view (k j : nat) (x : F) st v :
  balanced st v → balanced (scale_view k j x st) v.
Proof. unfold balanced. rewrite !deref_scale_length. auto. Qed.

Lemma make_variable_balanced st (description : string) (row : list Z)
    st' v (t : arr F) :
  Forall wf st →
  make_variable natu_units decode_utf8 st description row = Ok (st', v, t) →
  Forall wf st' ∧ length st' = length st ∧ balanced st' v
  ∧ (∀ v0, balanced st v0 → balanced st' v0)
  ∧ ∃ k, t = View k 0%nat ∧ (k < length st')%nat.
Proof.
  intros Hwf Hmake.
  apply make_variable_inv in Hmake
    as (traj & k & j & Htraj & Hj & -> & Htimes & Hst & Hlen).
  assert (wf traj) as Hwft by (eapply Forall_lookup_1; eassumption).
  assert (length (deref st (View k j)) = length (deref st (View k 0%nat))) as Hcols.
  { simpl. rewrite Htraj. rewrite !column_length by (assumption || lia). reflexivity. }
  assert (k < length st)%nat as Hk by (eapply lookup_lt_Some; eassumption).
  unfold balanced. rewrite Htimes, Hlen, Hcols.
  destruct Hst as [->|[x ->]].
  - repeat split; try assumption; try reflexivity; [auto|]. exists k. by split.
  - repeat split.
    + apply scale_view_wf, Hwf.
    + unfold scale_view. apply length_alter.
    + symmetry. apply deref_scale_length.
    + intros v0. apply balanced_scale_view.
    + exists k. split; [reflexivity|]. unfold scale_view. by rewrite length_alter.
Qed.

Lemma make_variables_balanced (items : list (string * list Z)) st
    (variables : list (SimVariable F Dim ustring)) (last_times : option (arr F))
    st' variables' last_times' :
  Forall wf st → Forall (balanced st) variables →
  (∀ t, last_times = Some t → ∃ k, t = View k 0%nat ∧ (k < length st)%nat) →
  make_variables natu_units decode_utf8 items st variables last_times
  = Ok (st', variables', last_times') →
  Forall wf st' ∧ length st' = length st
  ∧ Forall (balanced st') variables'
  ∧ length variables' = (length variables + length items)%nat
  ∧ (∀ t, last_times' = Some t → ∃ k, t = View k 0%nat ∧ (k < length st')%nat)
  ∧ (items = [] → last_times' = last_times).
Proof.
  revert st variables last_times.
  induction items as [|[description row] items IH];
    intros st variables last_times Hwf Hbal Hlast; simpl.
  - intros [= <- <- <-]. rewrite Nat.add_0_r. repeat split; auto.
  - destruct (make_variable natu_units decode_utf8 st description row)
      as [[[st1 v] t]|e] eqn:Hmake; [|discriminate].
    rewrite bind_ok.
    apply make_variable_balanced in Hmake
      as (Hwf1 & Hlen1 & Hv & Hkeep & Ht); [|exact Hwf].
    intros Hrest. apply IH in Hrest as (Hwf' & Hlen' & Hbal' & Hcount & Hlast' & _).
    + rewrite length_app in Hcount. simpl in Hcount.
      repeat split; try assumption; try lia. discriminate.
    + exact Hwf1.
    + apply Forall_app. split.
      * eapply Forall_impl; [exact Hbal|]. exact Hkeep.
      * by constructor.
    + intros t0 [= <-]. exact Ht.
Qed.

End VariableProperties.

Section Readsim11Properties.
Context {F : Type} `{!Numeric F} {Dim ustring : Type}.
Variable natu_units : string → result (Unit Dim F).
Variable second_value : F.
Variable second_dimension : Dim.
Variable decode_utf8 : string → result ustring.
Implicit Types (data : gmap string (value F)) (st : store F).

Lemma extract_trajectories_wf (fuel i : nat) data (trajectories st : store F) :
  (∀ k m, data !! k = Some (Float2 m) → wf m) →
  Forall wf trajectories →
  extract_trajectories second_value fuel i data trajectories = Ok st →
  Forall wf st.
Proof.
  intros Hdata. revert i trajectories.
  induction fuel as [|fuel IH]; intros i trajectories Hwf; simpl.
  - intros [= <-]. exact Hwf.
  - destruct (data !! ("data_" +:+ Str.of_nat i)) as [v|] eqn:Hv.
    2:{ intros [= <-]. exact Hwf. }
    destruct v as [m| | | | |]; try discriminate.
    change (as_float2 (Float2 m)) with (Ok m). rewrite ?bind_ok.
    assert (wf m) as Hm by (eapply Hdata, Hv).
    destruct (fne_one second_value).
    + destruct (col_index m 0) as [t|e]; [|discriminate]. rewrite ?bind_ok.
      apply IH. apply Forall_app. split; [exact Hwf|].
      constructor; [|constructor]. apply scale_column_wf, Hm.
    + rewrite ?bind_ok. apply IH. apply Forall_app. split; [exact Hwf|].
      by repeat constructor.
Qed.

Lemma dict_lookup_in {V} (pairs : list (string * V)) (k : string) (x : V) :
  dict pairs !! k = Some x → (k, x) ∈ pairs.
Proof.
  unfold dict.
  assert (∀ d0 : gmap string V,
            foldl (λ d kv, <[kv.1 := kv.2]> d) d0 pairs !! k = Some x →
            (k, x) ∈ pairs ∨ d0 !! k = Some x) as Hfold.
  { induction pairs as [|[k' x'] pairs IH]; intros d0; simpl; [auto|].
    intros Hk. apply IH in Hk as [Hin|Hk]; [left; by right|].
    apply lookup_insert_Some in Hk as [[<- <-]|[_ Hk]]; [left; by left|by right]. }
  intros Hk. apply Hfold in Hk as [Hin|Hk]; [exact Hin|].
  by rewrite lookup_empty in Hk.
Qed.

(** What a successful run of the branch of version 1.1 went through. *)
Lemma readsim_1_1_inv data variables st :
  readsim_1_1 natu_units second_value second_dimension decode_utf8 data
  = Ok (variables, st) →
  ∃ names trajectories descriptions dataInfo vars t,
    extract_trajectories second_value (S (size data)) 1 data [] = Ok trajectories
    ∧ data !! "name" = Some (StrList names)
    ∧ data !! "description" = Some (StrList descriptions)
    ∧ data !! "dataInfo" = Some (Int2 dataInfo)
    ∧ make_variables natu_units decode_utf8
        (zip descriptions (first_two_columns dataInfo)) trajectories [] None
      = Ok (st, vars, Some t)
    ∧ variables
      = <["Time" := mkVariable (mkSamples t t false) (Some second_dimension)
                      (Some "s") (Bytes "Time")]> (dict (zip names vars)).
Proof.
  unfold readsim_1_1, Py.getitem.
  destruct (data !! "name") as [names_v|]; [|discriminate]. rewrite ?bind_ok.
  destruct (extract_trajectories _ _ _ _ _) as [trajectories|e]; [|discriminate].
  rewrite ?bind_ok.
  destruct (data !! "description") as [dv|]; [|discriminate]. rewrite ?bind_ok.
  destruct dv as [| | |descriptions| |]; try discriminate. cbn [as_strings as_int2]. rewrite ?bind_ok.
  destruct (data !! "dataInfo") as [iv|]; [|discriminate]. rewrite ?bind_ok.
  destruct iv as [|dataInfo| | | |]; try discriminate. cbn [as_strings as_int2]. rewrite ?bind_ok.
  destruct (make_variables _ _ _ _ _ _) as [[[st1 vars] last]|e] eqn:Hmake;
    [|discriminate].
  rewrite ?bind_ok.
  destruct names_v as [| | |names| |]; try discriminate. cbn [as_strings as_int2]. rewrite ?bind_ok.
  destruct last as [t|]; [|discriminate].
  intros [= <- <-]. exists names, trajectories, descriptions, dataInfo, vars, t.
  repeat split; (reflexivity || exact Hmake).
Qed.

End Readsim11Properties.

(** X9.  In a result of version 1.1 the times and the signed values of
    every variable have one length, the number of rows of the trajectory
    matrix they come from; this holds for the variable Time as well, and in
    the matrices as the units' values have left them. *)
Theorem readsim_1_1_lengths {F} `{!Numeric F} {Dim ustring : Type}
    (natu_units : string → result (Unit Dim F)) (second_value : F)
    (second_dimension : Dim) (decode_utf8 : string → result ustring)
    (data : gmap string (value F))
    (variables : gmap string (SimVariable F Dim ustring)) (st : store F)
    (name : string) (v : SimVariable F Dim ustring) :
  (∀ k m, data !! k = Some (Float2 m) → wf m) →
  readsim_1_1 natu_units second_value second_dimension decode_utf8 data
  = Ok (variables, st) →
  variables !! name = Some v →
  length (deref st (signed_values (samples v)))
  = length (deref st (times (samples v))).
Proof.
  intros Hdata Hread Hv.
  apply readsim_1_1_inv in Hread
    as (names & trajectories & descriptions & dataInfo & vars & t
        & Hextract & _ & _ & _ & Hmake & ->).
  apply lookup_insert_Some in Hv as [[_ <-]|[_ Hv]]; [reflexivity|].
  apply dict_lookup_in, elem_of_zip_r in Hv.
  apply (extract_trajectories_wf second_value) in Hextract;
    [|exact Hdata|constructor].
  apply make_variables_balanced in Hmake as (_ & _ & Hbal & _);
    [|exact Hextract|constructor|discriminate].
  rewrite Forall_forall in Hbal. apply (Hbal v Hv).
Qed.

(** X10.  A result of version 1.1 always has the variable Time: its times
    and its values are one array, column 0 of one of the trajectory
    matrices, it is not negated and its display unit is "s"; a variable
    that the file itself calls Time is replaced by it. *)
Theorem readsim_1_1_time {F} `{!Numeric F} {Dim ustring : Type}
    (natu_units : string → result (Unit Dim F)) (second_value : F)
    (second_dimension : Dim) (decode_utf8 : string → result ustring)
    (data : gmap string (value F))
    (variables : gmap string (SimVariable F Dim ustring)) (st : store F) :
  (∀ k m, data !! k = Some (Float2 m) → wf m) →
  readsim_1_1 natu_units second_value second_dimension decode_utf8 data
  = Ok (variables, st) →
  ∃ k, (k < length st)%nat
       ∧ variables !! "Time"
         = Some (mkVariable (mkSamples (View k 0) (View k 0) false)
                   (Some second_dimension) (Some "s") (Bytes "Time")).
Proof.
  intros Hdata Hread.
  apply readsim_1_1_inv in Hread
    as (names & trajectories & descriptions & dataInfo & vars & t
        & Hextract & _ & _ & _ & Hmake & ->).
  apply (extract_trajectories_wf second_value) in Hextract;
    [|exact Hdata|constructor].
  apply make_variables_balanced in Hmake as (_ & _ & _ & _ & Hlast & _);
    [|exact Hextract|constructor|discriminate].
  destruct (Hlast t eq_refl) as (k & -> & Hk).
  exists k. split; [exact Hk|]. apply lookup_insert_eq.
Qed.

Lemma file_1_1_wf (k : string) (m : ndarray Z) :
  MoreExamples.file_1_1 !! k = Some (Float2 m) → wf m.
Proof.
  unfold MoreExamples.file_1_1. intros Hk.
  repeat (apply lookup_insert_Some in Hk as [[_ Hk]|[_ Hk]];
          [try discriminate; injection Hk as <-; repeat constructor|]).
  apply lookup_singleton_Some in Hk as [_ Hk]. injection Hk as <-.
  repeat constructor.
Qed.

Lemma readsim_1_1_lengths_witness :
  ∃ variables st v,
    readsim_1_1 Examples.units 1 0%nat Examples.decode MoreExamples.file_1_1
    = Ok (variables, st)
    ∧ variables !! "T2" = Some v
    ∧ signed_values (samples v) = Fresh [20273; 21273; 22273]
    ∧ length (deref st (signed_values (samples v)))
      = length (deref st (times (samples v))).
Proof.
  eexists _, _, _. split; [lazy; reflexivity|]. split; [lazy; reflexivity|].
  split; [reflexivity|].
  eapply (readsim_1_1_lengths Examples.units 1 0%nat Examples.decode
            MoreExamples.file_1_1 _ _ "T2" _ file_1_1_wf);
    lazy; reflexivity.
Defined.

Lemma readsim_1_1_time_witness :
  ∃ variables st k,
    readsim_1_1 Examples.units 1 0%nat Examples.decode MoreExamples.file_1_1
    = Ok (variables, st)
    ∧ (k < length st)%nat
    ∧ variables !! "Time"
      = Some (mkVariable (mkSamples (View k 0) (View k 0) false)
                (Some 0%nat) (Some "s") (Bytes "Time")).
Proof.
  assert (∃ variables st,
            readsim_1_1 Examples.units 1 0%nat Examples.decode MoreExamples.file_1_1
            = Ok (variables, st)) as (variables & st & Hread)
    by (eexists _, _; lazy; reflexivity).
  destruct (readsim_1_1_time Examples.units 1 0%nat Examples.decode
              MoreExamples.file_1_1 variables st file_1_1_wf Hread) as (k & Hk & HTime).
  exists variables, st, k. split; [exact Hread|]. split; [exact Hk|exact HTime].
Defined.

(** ** What [readsim] needs to return *)

Lemma readsim_1_0_never_ok {F} `{!Numeric F} (Dim ustring : Type) (second_value : F)
    (data : gmap string (value F)) :
  Py.is_ok (readsim_1_0 Dim ustring second_value data) = false.
Proof.
  unfold readsim_1_0.
  destruct (Py.getitem data "data") as [v|e]; [|reflexivity].
  rewrite bind_ok. destruct (as_float2 v) as [traj|e]; [|reflexivity].
  rewrite bind_ok. destruct (col_index traj 0) as [t|e]; reflexivity.
Qed.

(** X11.  [readsim] returns variables only for a file whose Aclass says
    "Atrajectory" and version "1.1" and that has at least one variable: a
    description and a row of dataInfo.  Every other file ends in an
    exception; a trajectory file without any variable does, too (the
    variable Time needs the times of the last variable). *)
Theorem readsim_returns_only_for {F} `{!Numeric F} {Dim ustring : Type}
    (natu_units : string → result (Unit Dim F)) (second_value : F)
    (second_dimension : Dim) (decode_utf8 : string → result ustring)
    (fname : string) (data : gmap string (value F)) (Aclass : list string) :
  Py.is_ok (readsim_loaded natu_units second_value second_dimension decode_utf8
              fname data Aclass) = true →
  Aclass !! 0%nat = Some "Atrajectory" ∧ Aclass !! 1%nat = Some "1.1"
  ∧ (∃ d ds, data !! "description" = Some (StrList (d :: ds)))
  ∧ (∃ c r rs, data !! "dataInfo" = Some (Int2 (Ndarray c (r :: rs)))).
Proof.
  unfold readsim_loaded, item.
  destruct (Aclass !! 0%nat) as [kind|]; [|discriminate]. rewrite bind_ok.
  destruct (String.eqb kind "AlinearSystem"); [discriminate|].
  destruct (String.eqb kind "Atrajectory") eqn:Hkind; [|discriminate].
  apply String.eqb_eq in Hkind. subst kind. cbn [negb].
  destruct (Aclass !! 1%nat) as [version|]; [|discriminate]. rewrite bind_ok.
  destruct (String.eqb version "1.1") eqn:Hversion.
  - apply String.eqb_eq in Hversion. subst version.
    destruct (readsim_1_1 _ _ _ _ _) as [[variables st]|e] eqn:Hread; [|discriminate].
    intros _. apply readsim_1_1_inv in Hread
      as (names & trajectories & descriptions & dataInfo & vars & t
          & _ & _ & Hd & Hi & Hmake & _).
    destruct descriptions as [|d ds].
    { simpl in Hmake. discriminate. }
    destruct dataInfo as [c [|r rs]].
    { simpl in Hmake. discriminate. }
    repeat split; eauto.
  - destruct (String.eqb version "1.0"); [|discriminate].
    rewrite readsim_1_0_never_ok. discriminate.
Qed.

Lemma readsim_returns_only_for_witness :
  Py.is_ok (readsim_loaded Examples.units 1 0%nat Examples.decode "Chua.mat"
              MoreExamples.file_1_1 ["Atrajectory"; "1.1"]) = true
  ∧ (∃ d ds, MoreExamples.file_1_1 !! "description" = Some (StrList (d :: ds)))
  ∧ (∃ c r rs, MoreExamples.file_1_1 !! "dataInfo" = Some (Int2 (Ndarray c (r :: rs)))).
Proof.
  assert (Py.is_ok (readsim_loaded Examples.units 1 0%nat Examples.decode "Chua.mat"
                      MoreExamples.file_1_1 ["Atrajectory"; "1.1"]) = true) as Hok
    by (vm_compute; reflexivity).
  split; [exact Hok|].
  exact (proj2 (proj2 (readsim_returns_only_for Examples.units 1 0%nat
                         Examples.decode "Chua.mat" MoreExamples.file_1_1
                         ["Atrajectory"; "1.1"] Hok))).
Defined.

(** ** Columns that variables share *)

Lemma deref_scale_frame {F} `{!Numeric F} (k j : nat) (x : F) (st : store F)
    (k' j' : nat) :
  k' ≠ k ∨ j' ≠ j →
  deref (scale_view k j x st) (View k' j') = deref st (View k' j').
Proof.
  intros Hne. unfold deref, scale_view.
  destruct (decide (k = k')) as [<-|Hk].
  - rewrite list_lookup_alter_eq. destruct (st !! k); [|reflexivity]. simpl.
    apply column_scale_other. destruct Hne; congruence.
  - rewrite list_lookup_alter_ne by exact Hk. reflexivity.
Qed.

(** ** The family of trajectory matrices *)

Lemma extract_trajectories_run {F} `{!Numeric F} (second_value : F)
    (fuel i : nat) (data remaining : gmap string (value F))
    (trajectories st : store F) :
  (∀ j, (i ≤ j)%nat →
        data !! ("data_" +:+ Str.of_nat j) = remaining !! ("data_" +:+ Str.of_nat j)) →
  (size remaining < fuel)%nat →
  extract_trajectories second_value fuel i data trajectories = Ok st →
  ∃ n, length st = (length trajectories + n)%nat
       ∧ take (length trajectories) st = trajectories
       ∧ (∀ j, (j < n)%nat →
            ∃ m, data !! ("data_" +:+ Str.of_nat (i + j)) = Some (Float2 m)
                 ∧ st !! (length trajectories + j)%nat
                   = Some (if fne_one second_value
                           then scale_column 0 second_value m else m))
       ∧ data !! ("data_" +:+ Str.of_nat (i + n)) = None.
Proof.
  revert i remaining trajectories.
  induction fuel as [|fuel IH]; intros i remaining trajectories Hsame Hsize; [lia|].
  simpl.
  destruct (data !! ("data_" +:+ Str.of_nat i)) as [v|] eqn:Hv.
  2:{ intros [= <-]. exists 0%nat. rewrite !Nat.add_0_r.
      repeat split; [apply take_ge; lia | intros j Hj; lia | exact Hv]. }
  destruct v as [m| | | | |]; try discriminate.
  change (as_float2 (Float2 m)) with (Ok m). rewrite ?bind_ok.
  destruct (if fne_one second_value
            then (_ ← col_index m 0; Ok (scale_column 0 second_value m))
            else Ok m) as [m'|e] eqn:Hm'; [|discriminate].
  assert (m' = if fne_one second_value then scale_column 0 second_value m else m)
    as Hscaled.
  { destruct (fne_one second_value); [|congruence].
    destruct (col_index m 0); [|discriminate]. rewrite bind_ok in Hm'. congruence. }
  rewrite ?bind_ok. intros Hrest.
  pose proof Hv as Hrem. rewrite Hsame in Hrem by lia.
  assert (size remaining ≠ 0%nat) as Hne
    by (apply (map_size_ne_0_lookup_2 _ ("data_" +:+ Str.of_nat i)); eauto).
  apply (IH _ (delete ("data_" +:+ Str.of_nat i) remaining)) in Hrest
    as (n & Hlen & Htake & Hrun & Hstop).
  - rewrite length_app in Hlen, Htake, Hrun. simpl in Hlen, Htake, Hrun.
    exists (S n). split; [lia|]. split; [|split].
    + apply (f_equal (take (length trajectories))) in Htake.
      rewrite take_take, Nat.min_l, take_app_length in Htake by lia. exact Htake.
    + intros [|j] Hj.
      * exists m. rewrite !Nat.add_0_r. split; [exact Hv|].
        apply (f_equal (λ l, l !! length trajectories)) in Htake.
        rewrite lookup_take_lt, list_lookup_middle in Htake by lia.
        rewrite Htake, Hscaled. reflexivity.
      * destruct (Hrun j ltac:(lia)) as (m0 & Hm0 & Hst).
        exists m0. split.
        -- replace (i + S j)%nat with (S i + j)%nat by lia. exact Hm0.
        -- replace (length trajectories + S j)%nat
             with (length trajectories + 1 + j)%nat by lia. exact Hst.
    + replace (i + S n)%nat with (S i + n)%nat by lia. exact Hstop.
  - intros j Hj. rewrite lookup_delete_ne; [apply Hsame; lia|].
    intros Heq. apply data_key_inj in Heq. lia.
  - rewrite map_size_delete, Hrem. simpl. lia.
Qed.

(** X13.  The trajectory matrices are [data_1], [data_2], ... up to the
    first number that is missing, in this order, each with its time column
    multiplied by the value of the unit second when that is not 1; a
    matrix [data_N] after a gap is not collected. *)
Theorem trajectories_up_to_first_gap {F} `{!Numeric F} (second_value : F)
    (data : gmap string (value F)) (st : store F) :
  extract_trajectories second_value (S (size data)) 1 data [] = Ok st →
  (∀ j, (j < length st)%nat →
     ∃ m, data !! ("data_" +:+ Str.of_nat (S j)) = Some (Float2 m)
          ∧ st !! j = Some (if fne_one second_value
                            then scale_column 0 second_value m else m))
  ∧ data !! ("data_" +:+ Str.of_nat (S (length st))) = None.
Proof.
  intros Hrun.
  apply (extract_trajectories_run second_value _ 1 data data) in Hrun
    as (n & Hlen & _ & Hmatrices & Hstop); [|reflexivity|lia].
  simpl in Hlen. subst n. split; [|exact Hstop].
  intros j Hj. apply (Hmatrices j Hj).
Qed.

Lemma trajectories_up_to_first_gap_witness :
  extract_trajectories 1 (S (size MoreExamples.gap_file)) 1 MoreExamples.gap_file []
  = Ok [Examples.data_1]
  ∧ MoreExamples.gap_file !! "data_2" = None
  ∧ is_Some (MoreExamples.gap_file !! "data_3").
Proof.
  assert (extract_trajectories 1 (S (size MoreExamples.gap_file)) 1
            MoreExamples.gap_file [] = Ok [Examples.data_1]) as Hrun
    by (vm_compute; reflexivity).
  split; [exact Hrun|].
  split; [|eexists; reflexivity].
  exact (proj2 (trajectories_up_to_first_gap 1 MoreExamples.gap_file
                  [Examples.data_1] Hrun)).
Defined.

(** ** The parts of a linearization *)

Lemma zip_with_take_drop {A} (n : nat) (l : list (list A)) :
  zip_with app (take n <$> l) (drop n <$> l) = l.
Proof.
  induction l as [|r l IH]; [reflexivity|]. csimpl.
  rewrite take_drop, IH. reflexivity.
Qed.

(** X14.  With counts nx >= 0 and nu >= 0 the three lists of names are a
    division of xuyName: the names of the states, of the inputs and of the
    outputs, one after the other, are xuyName again, whatever its length. *)
Theorem system_names_divide (xuyName : list string) (nx nu : Z) :
  0 <= nx → 0 <= nu →
  let '(xs, us, ys) := system_names xuyName nx nu in
  xs ++ us ++ ys = xuyName.
Proof.
  intros Hnx Hnu. replace nu with (Z.of_nat (Z.to_nat nu)) by lia.
  rewrite system_names_by_counts by exact Hnx.
  rewrite app_assoc, take_take_drop. apply take_drop.
Qed.

Lemma system_names_divide_witness :
  system_names ["x1"; "x2"; "u1"; "u2"; "y1"] 2 2
  = (["x1"; "x2"], ["u1"; "u2"], ["y1"])
  ∧ ["x1"; "x2"] ++ ["u1"; "u2"] ++ ["y1"] = ["x1"; "x2"; "u1"; "u2"; "y1"].
Proof.
  split; [reflexivity|].
  exact (system_names_divide ["x1"; "x2"; "u1"; "u2"; "y1"] 2 2
           ltac:(lia) ltac:(lia)).
Defined.

(** X15.  When there are states, inputs and outputs (0 < nx, nx below the
    number of rows and below the number of columns of ABCD), the four
    matrices that go to [ss] are a division of ABCD: A beside B, above C
    beside D, is ABCD. *)
Theorem system_matrices_divide {F} (ABCD : ndarray F) (nx : Z) :
  0 < nx → nx < Z.of_nat (nrows ABCD) → nx < Z.of_nat (ncols ABCD) →
  let '(_, _, (A, B, C, D)) := system_matrices ABCD nx in
  above (beside A B) (beside C D) = ABCD.
Proof.
  intros Hnx Hr Hc. unfold system_matrices.
  replace (0 <? nx) with true by lia.
  replace (0 <? Z.of_nat (ncols ABCD) - nx) with true by lia.
  replace (0 <? Z.of_nat (nrows ABCD) - nx) with true by lia.
  cbn [andb]. destruct ABCD as [c rs].
  unfold above, beside, top_left, top_right, bottom_left, bottom_right,
    width_to, width_from, nrows in *. cbn [ncols rows] in *.
  rewrite bound_nonneg by lia. f_equal; [lia|].
  rewrite !zip_with_take_drop.
  rewrite slice_to_nonneg, slice_from_nonneg by lia. apply take_drop.
Qed.

Lemma system_matrices_divide_witness :
  above (beside (Ndarray 2 [[11; 12]; [21; 22]]) (Ndarray 2 [[13; 14]; [23; 24]]))
        (beside (Ndarray 2 [[31; 32]]) (Ndarray 2 [[33; 34]]))
  = Examples.ABCD.
Proof.
  exact (system_matrices_divide Examples.ABCD 2
           ltac:(lia) ltac:(vm_compute; reflexivity) ltac:(vm_compute; reflexivity)).
Defined.

(** ** The names of the matrices *)

Lemma update_items_dom {F} (f : string → value F → result (value F))
    (data d : gmap string (value F)) :
  update_items f data = Ok d → dom d = dom data.
Proof.
  unfold update_items.
  assert (∀ d0 d' : gmap string (value F),
            map_fold (λ name v acc, d ← acc; v' ← f name v; Ok (<[name := v']> d))
                     (Ok d0) data = Ok d' →
            dom d' = dom data ∪ dom d0) as Hfold.
  { intros d0.
    apply (map_fold_weak_ind
             (λ r m, ∀ d', r = Ok d' → dom d' = dom m ∪ dom d0)).
    - intros d' [= <-]. rewrite dom_empty_L, (left_id_L ∅ (∪)). reflexivity.
    - intros i x m r Hi IH d'. destruct r as [d1|e]; [|discriminate].
      rewrite bind_ok. destruct (f i x) as [v'|e]; [|discriminate].
      rewrite bind_ok. intros [= <-]. rewrite !dom_insert_L, (IH d1 eq_refl).
      apply (assoc_L (∪)). }
  intros Hd. apply Hfold in Hd. rewrite Hd. apply (idemp_L (∪)).

Qed.

(** X16.  [read] returns a value for every matrix of the file but Aclass,
    under the name it has in the file, and for nothing else. *)
Theorem read_keeps_names {F} (fname : string) (binary : bool)
    (data d : gmap string (value F)) (Aclass : list string) :
  read_loaded fname binary data = Ok (d, Aclass) →
  dom d = dom data ∖ {["Aclass"]}.
Proof.
  unfold read_loaded. destruct (data !! "Aclass") as [A|]; [|discriminate].
  destruct binary.
  - destruct A as [| |m| | |]; try discriminate. rewrite bind_ok.
    destruct (is_transposed (get_strings m)) as [transposed|e]; [|discriminate].
    rewrite bind_ok.
    destruct (update_items _ _) as [d1|e] eqn:Hitems; [|discriminate].
    rewrite bind_ok. intros [= <- _].
    apply update_items_dom in Hitems. rewrite Hitems. apply dom_delete_L.
  - destruct (update_items _ _) as [d1|e] eqn:Hitems; [|discriminate].
    rewrite bind_ok. destruct A as [| | |l| |]; try discriminate.
    rewrite bind_ok. intros [= <- _].
    apply update_items_dom in Hitems. rewrite Hitems. apply dom_delete_L.
Qed.

Lemma read_keeps_names_witness :
  dom (<["data_1" := Float2 Examples.data_2]>
         ({["ABCD" := Float2 (transpose Examples.ABCD)]} : gmap string (value Z)))
  = dom MoreExamples.text_matrices ∖ {["Aclass"]}.
Proof.
  apply (read_keeps_names "dslin.txt" false MoreExamples.text_matrices _
           ["AlinearSystem"; "1.0"]).
  vm_compute. reflexivity.
Defined.
